(** * tailless / log_view.py: the log-line view

    A shallow embedding of [src/tailless/log_view.py]: the suggestion index
    filled while lines are rendered ([LogLines.render_line]), the
    autocompletion built on it ([SearchSuggester.get_suggestion]), the
    match test of the find dialog ([LogLines.check_match]) and the
    directional search ([LogLines.advance_search]).

    Conventions.
    - A Python [str] is a Rocq [string]; a character stands for the code
      point of the same number (U+0000 .. U+00FF).
    - Line numbers, offsets of the viewport and widths are [Z]; lengths and
      slice bounds that Python keeps non-negative are [nat].
    - [LRUCache] objects are finite maps ([gmap]): [k in c], [c[k]] and
      [c.get(k)] read entries as they do on a mapping; [c[k] = v] is
      [LRUCache.set], which stores [v] when [k] is a new key and leaves a
      key that is present with the value it has.  The order of use, which
      only decides what is evicted once the capacity is reached, is not
      tracked.
    - A Python exception is the [Raise] outcome of the [M] monad. *)

From Stdlib Require Import ZArith Lia Ascii String List Bool.
From stdpp Require Import base gmap strings list list_monad fin_maps.

Local Open Scope string_scope.
Local Open Scope nat_scope.
Local Open Scope list_scope.

(** ** Python strings *)

Module Py.

(** [len(s)] *)
Definition len (s : string) : nat := String.length s.

(** [not s] for a string: only the empty string is falsy. *)
Definition falsy (s : string) : bool :=
  match s with
  | EmptyString => true
  | String _ _ => false
  end.

(** [c.lower()] on one character of U+0000 .. U+00FF: the letters A-Z, and
    the Latin-1 capitals U+00C0 .. U+00DE but for the multiplication sign
    U+00D7, move up by 32. *)
Definition lower_char (c : ascii) : ascii :=
  let n := N_of_ascii c in
  if ((65 <=? n) && (n <=? 90)
      || (192 <=? n) && (n <=? 222) && negb (n =? 215))%N
  then ascii_of_N (n + 32) else c.

(** [s.lower()] on a string of characters of U+0000 .. U+00FF, where it
    works one character at a time and keeps the length.  (Beyond this range
    [str.lower] can lengthen a string, U+0130, and look at the neighbours of
    a character, the final sigma; such text is outside the model.) *)
Fixpoint lower (s : string) : string :=
  match s with
  | EmptyString => EmptyString
  | String c s' => String (lower_char c) (lower s')
  end.

(** [s[:n]] for [0 <= n] *)
Fixpoint take (n : nat) (s : string) : string :=
  match n, s with
  | S n', String c s' => String c (take n' s')
  | _, _ => EmptyString
  end.

(** [s[:-n]] for [0 <= n].  Python reads [-0] as [0], so [s[:-0]] is the
    empty string, not [s]. *)
Definition drop_last (n : nat) (s : string) : string :=
  match n with
  | O => EmptyString
  | S _ => take (len s - n) s
  end.

(** [s.startswith(p)] *)
Fixpoint startswith (p s : string) : bool :=
  match p, s with
  | EmptyString, _ => true
  | String a p', String b s' => if Ascii.eqb a b then startswith p' s' else false
  | String _ _, EmptyString => false
  end.

(** [p in s]: [p] occurs in [s] as a substring. *)
Fixpoint contains (p s : string) : bool :=
  startswith p s ||
  match s with
  | EmptyString => false
  | String _ s' => contains p s'
  end.

(** [range(start, stop)] on naturals. *)
Definition range (start stop : nat) : list nat := seq start (stop - start).

(** [k] integers from [start] on, going up. *)
Fixpoint count_up (start : Z) (k : nat) : list Z :=
  match k with
  | O => []
  | S k => start :: count_up (start + 1) k
  end.

(** [k] integers from [start] on, going down. *)
Fixpoint count_down (start : Z) (k : nat) : list Z :=
  match k with
  | O => []
  | S k => start :: count_down (start - 1) k
  end.

(** [range(start, stop)] on integers: [start, start + 1, ..., stop - 1]. *)
Definition range_up (start stop : Z) : list Z :=
  count_up start (Z.to_nat (stop - start)).

(** [range(start, -1, -1)]: [start, start - 1, ..., 0]. *)
Definition range_down (start : Z) : list Z :=
  count_down start (Z.to_nat (start + 1)).

End Py.

(** ** [SPLIT_REGEX] and [re.split] *)

(** What [\s] matches in a [str] pattern, on U+0000 .. U+00FF: tab, line
    feed, vertical tab, form feed, carriage return, the four separators
    U+001C .. U+001F, the space, next line (U+0085) and the no-break space
    (U+00A0). *)
Definition is_space (c : ascii) : bool :=
  let n := N_of_ascii c in
  ((9 <=? n) && (n <=? 13) || (28 <=? n) && (n <=? 32)
   || (n =? 133) || (n =? 160))%N.

(** [SPLIT_REGEX = r"[\s/\[\]]"]: one character, a space or one of
    [/], [[], []]. *)
Definition SPLIT_REGEX (c : ascii) : bool :=
  is_space c || Ascii.eqb c "/" || Ascii.eqb c "[" || Ascii.eqb c "]".

(** [re.split(SPLIT_REGEX, s)]: the pieces of [s] between the delimiters.
    Every delimiter ends a piece, so two delimiters in a row, or one at
    either end, give an empty piece; the result is never empty. *)
Fixpoint re_split (s : string) : list string :=
  match s with
  | EmptyString => [EmptyString]
  | String c s' =>
      if SPLIT_REGEX c then EmptyString :: re_split s'
      else match re_split s' with
           | [] => [String c EmptyString]
           | w :: ws => String c w :: ws
           end
  end.

(** [l[-1]] with a default for the empty list, which [re_split] never
    returns. *)
Definition last_piece (l : list string) : string := List.last l EmptyString.

(** ** The caches *)

(** [cache[key] = value] on an [LRUCache]: [LRUCache.set] links a new key in
    and does nothing for a key the cache holds already. *)
Definition LRUCache_set `{Countable K} {V : Type} (key : K) (value : V)
    (cache : gmap K V) : gmap K V :=
  match cache !! key with
  | Some _ => cache
  | None => <[key := value]> cache
  end.

(** ** The suggestion index *)

(** The body of the inner loop of [render_line], for one [offset]:
<<
    sub_word = word[:offset]
    if sub_word in search_index:
        if len(search_index[sub_word]) < len(word):
            search_index[sub_word.lower()] = word
    else:
        search_index[sub_word.lower()] = word
>>
    The membership test and the read use [sub_word] as it is; the two
    stores use [sub_word.lower()], and a store is [LRUCache.set]. *)
Definition index_prefix (word : string)
    (search_index : gmap string string) (offset : nat) : gmap string string :=
  let sub_word := Py.take offset word in
  match search_index !! sub_word with
  | Some stored =>
      if Py.len stored <? Py.len word
      then LRUCache_set (Py.lower sub_word) word search_index
      else search_index
  | None => LRUCache_set (Py.lower sub_word) word search_index
  end.

(** One turn of the outer loop:
<<
    if len(word) <= 1:
        continue
    for offset in range(1, len(word) - 1):
        ...
>> *)
Definition index_word (search_index : gmap string string) (word : string)
    : gmap string string :=
  if Py.len word <=? 1 then search_index
  else fold_left (index_prefix word) (Py.range 1 (Py.len word - 1)) search_index.

(** [for word in re.split(SPLIT_REGEX, text.plain): ...] *)
Definition observe (search_index : gmap string string) (plain : string)
    : gmap string string :=
  fold_left index_word (re_split plain) search_index.

(** [SearchSuggester.get_suggestion]:
<<
    word = re.split(SPLIT_REGEX, value)[-1]
    start = value[: -len(word)]
    if not word:
        return None
    search_hit = self.search_index.get(word.lower(), None)
    if search_hit is None:
        return None
    return start + search_hit
>> *)
Definition get_suggestion (search_index : gmap string string) (value : string)
    : option string :=
  let word := last_piece (re_split value) in
  let start := Py.drop_last (Py.len word) value in
  if Py.falsy word then None
  else match search_index !! Py.lower word with
       | None => None
       | Some search_hit => Some (start +:+ search_hit)
       end.

(** ** Exceptions *)

Inductive exn : Type :=
  | re_error         (* [re.error]: the pattern is not well formed *)
  | OverflowError    (* a repetition count too large for the engine *)
  | RecursionError   (* a pattern nested too deep for the compiler *)
  | IndexError.      (* a line number outside the index *)

Inductive outcome (A : Type) : Type :=
  | Ret (a : A)
  | Raise (e : exn).
Arguments Ret {A} a.
Arguments Raise {A} e.

#[export] Instance outcome_bind : MBind outcome := fun A B f m =>
  match m with
  | Ret a => f a
  | Raise e => Raise e
  end.

(** ** The [re] module, as far as the view uses it *)

(** [re.IGNORECASE] and [0] are the two values of [flags] the view passes. *)
Abbreviation flags := bool (only parsing).
Definition IGNORECASE : flags := true.
Definition NOFLAG : flags := false.

(** The interface of a regular-expression engine.
    - [re_compile pattern flags] is [re.compile(pattern, flags)]; it is
      [None] when the call raises, and [compile_exn pattern flags] is then
      the exception: [re.error] for a pattern that is not well formed,
      [OverflowError] or [RecursionError] for one the engine cannot hold.
    - [match_at p s pos] is [p.match(s, pos)]: the end of the match that
      starts exactly at [pos], or [None].
    - [finditer p s] is the list of the spans of [p.finditer(s)].
    - [compile_empty]: the empty pattern compiles and matches the empty
      string at the start of every string. *)
Class ReEngine : Type := {
  Pattern : Type;
  re_compile : string → flags → option Pattern;
  compile_exn : string → flags → exn;
  match_at : Pattern → string → nat → option nat;
  finditer : Pattern → string → list (nat * nat);
  compile_empty : ∀ fl, ∃ p,
    re_compile EmptyString fl = Some p ∧ ∀ s, match_at p s 0 = Some 0;
}.

Section Re.
Context `{ReEngine}.

(** [re.match(pattern, string, flags)]: compile, then match at position 0. *)
Definition re_match (pattern s : string) (fl : flags) : outcome (option nat) :=
  match re_compile pattern fl with
  | None => Raise (compile_exn pattern fl)
  | Some p => Ret (match_at p s 0)
  end.

(** [re.search(pattern, string, flags)]: compile, then the span of the match
    at the first position, from 0 to [len(string)], where one starts. *)
Definition re_search (pattern s : string) (fl : flags)
    : outcome (option (nat * nat)) :=
  match re_compile pattern fl with
  | None => Raise (compile_exn pattern fl)
  | Some p =>
      Ret (head (omap (fun pos => pair pos <$> match_at p s pos)
                      (seq 0 (S (Py.len s)))))
  end.

(** [re.finditer(pattern, string, flags)], as a list. *)
Definition re_finditer (pattern s : string) (fl : flags)
    : outcome (list (nat * nat)) :=
  match re_compile pattern fl with
  | None => Raise (compile_exn pattern fl)
  | Some p => Ret (finditer p s)
  end.

End Re.

(** ** A small engine

    An engine for a fragment of the pattern syntax, the one the examples run
    on: literal characters, [.], grouping with parentheses, alternation with
    [|], the postfix operators [*], [+] and [?], greedy or, with a [?] after
    them, lazy, and a backslash before one of the special characters.
    [parse] refuses what [re.compile] refuses in this fragment: a
    parenthesis without its partner, an operator with nothing to repeat, an
    operator after a quantifier that is complete, a backslash at the end.
    It refuses also every pattern outside the fragment, whether
    [re.compile] accepts it or not: a character class, a count in braces, an
    anchor, a possessive quantifier ([*+]), a group that starts with [?], a
    backslash before a letter or a digit. *)
Module MiniRe.

Inductive regex : Type :=
  | Eps
  | Chr (c : ascii)
  | Dot
  | Seq (a b : regex)
  | Alt (a b : regex)
  | Star (greedy : bool) (a : regex).

Definition is_special (c : ascii) : bool :=
  Py.contains (String c EmptyString) "\.*+?|()[]{}^$".

Definition is_postfix (c : ascii) : bool :=
  Ascii.eqb c "*" || Ascii.eqb c "+" || Ascii.eqb c "?".

(** [r] under the operator [op]; a lazy operator tries the shorter match
    first. *)
Definition postfix (op : ascii) (greedy : bool) (r : regex) : regex :=
  if Ascii.eqb op "*" then Star greedy r
  else if Ascii.eqb op "+" then Seq r (Star greedy r)
  else if greedy then Alt r Eps
  else Alt Eps r.

(** What follows an operator: a [?] makes it lazy. *)
Definition quantifier_kind (rest : string) : bool * string :=
  match rest with
  | String "?" rest' => (false, rest')
  | _ => (true, rest)
  end.

(** Recursive descent; [fuel] bounds the depth of the calls. *)
Fixpoint parse_alt (fuel : nat) (s : string) : option (regex * string) :=
  match fuel with
  | O => None
  | S fuel =>
      match parse_seq fuel s with
      | Some (a, String "|" rest) =>
          match parse_alt fuel rest with
          | Some (b, rest') => Some (Alt a b, rest')
          | None => None
          end
      | other => other
      end
  end
with parse_seq (fuel : nat) (s : string) : option (regex * string) :=
  match fuel with
  | O => None
  | S fuel =>
      match s with
      | EmptyString | String "|" _ | String ")" _ => Some (Eps, s)
      | _ =>
          match parse_atom fuel s with
          | Some (a, String op rest) =>
              if is_postfix op then
                let '(greedy, rest) := quantifier_kind rest in
                match rest with
                | String op' _ =>
                    if is_postfix op' then None
                    else match parse_seq fuel rest with
                         | Some (b, rest') =>
                             Some (Seq (postfix op greedy a) b, rest')
                         | None => None
                         end
                | EmptyString => Some (Seq (postfix op greedy a) Eps, rest)
                end
              else match parse_seq fuel (String op rest) with
                   | Some (b, rest') => Some (Seq a b, rest')
                   | None => None
                   end
          | Some (a, EmptyString) => Some (Seq a Eps, EmptyString)
          | None => None
          end
      end
  end
with parse_atom (fuel : nat) (s : string) : option (regex * string) :=
  match fuel with
  | O => None
  | S fuel =>
      match s with
      | String "(" (String "?" _) => None
      | String "(" rest =>
          match parse_alt fuel rest with
          | Some (a, String ")" rest') => Some (a, rest')
          | _ => None
          end
      | String "." rest => Some (Dot, rest)
      | String "\" (String c rest) =>
          if is_special c then Some (Chr c, rest) else None
      | String c rest =>
          if is_special c then None else Some (Chr c, rest)
      | EmptyString => None
      end
  end.

Definition parse (s : string) : option regex :=
  match parse_alt (4 + 4 * Py.len s) s with
  | Some (r, EmptyString) => Some r
  | _ => None
  end.

(** [star greedy step fuel s]: what is left of [s] after any number of
    rounds of [step], each round consuming something; the longest runs first
    when greedy, no round at all first when lazy. *)
Fixpoint star (greedy : bool) (step : string → list string) (fuel : nat)
    (s : string) : list string :=
  match fuel with
  | O => [s]
  | S fuel =>
      let more :=
        flat_map (fun s' => if Py.len s' <? Py.len s
                            then star greedy step fuel s' else [])
                 (step s) in
      if greedy then more ++ [s] else s :: more
  end.

(** [ends ic r s]: what is left of [s] after each way of matching [r] at its
    start, in the order a backtracking matcher tries them.  With [ic] two
    characters agree when their lowercase forms do. *)
Fixpoint ends (ic : bool) (r : regex) (s : string) : list string :=
  match r with
  | Eps => [s]
  | Chr c =>
      match s with
      | String x s' =>
          if (if ic then Ascii.eqb (Py.lower_char x) (Py.lower_char c)
              else Ascii.eqb x c)
          then [s'] else []
      | EmptyString => []
      end
  | Dot =>
      match s with
      | String x s' => if Ascii.eqb x "010" then [] else [s']
      | EmptyString => []
      end
  | Seq a b => flat_map (ends ic b) (ends ic a s)
  | Alt a b => ends ic a s ++ ends ic b s
  | Star greedy a => star greedy (ends ic a) (Py.len s) s
  end.

Fixpoint drop (n : nat) (s : string) : option string :=
  match n, s with
  | O, _ => Some s
  | S n', String _ s' => drop n' s'
  | S _, EmptyString => None
  end.

Definition mini_match_at (p : bool * regex) (s : string) (pos : nat)
    : option nat :=
  match drop pos s with
  | None => None
  | Some tail =>
      match ends p.1 p.2 tail with
      | [] => None
      | rest :: _ => Some (pos + (Py.len tail - Py.len rest))
      end
  end.

(** The match at [pos] a scan takes: the first way of matching in the order
    of [ends], or, when the scan must advance, the first that is not
    empty. *)
Definition scan_match_at (p : bool * regex) (s : string) (pos : nat)
    (must_advance : bool) : option nat :=
  match drop pos s with
  | None => None
  | Some tail =>
      match List.find
              (fun rest => negb must_advance || (Py.len rest <? Py.len tail))
              (ends p.1 p.2 tail) with
      | None => None
      | Some rest => Some (pos + (Py.len tail - Py.len rest))
      end
  end.

(** The first position from [pos] on, among [fuel] of them, where a match
    starts, with the end of that match.  Only at [pos] itself can the match
    be asked to advance. *)
Fixpoint first_from (p : bool * regex) (s : string) (pos fuel : nat)
    (must_advance : bool) : option (nat * nat) :=
  match fuel with
  | O => None
  | S fuel =>
      match scan_match_at p s pos must_advance with
      | Some stop => Some (pos, stop)
      | None => first_from p s (S pos) fuel false
      end
  end.

(** The spans of the matches found from left to right, each search starting
    where the last match ended; after an empty match the next one must
    advance if it starts at the same place. *)
Fixpoint finditer_from (fuel : nat) (p : bool * regex) (s : string)
    (pos : nat) (must_advance : bool) : list (nat * nat) :=
  match fuel with
  | O => []
  | S fuel =>
      match first_from p s pos (S (Py.len s) - pos) must_advance with
      | None => []
      | Some (start, stop) =>
          (start, stop) :: finditer_from fuel p s stop (stop =? start)
      end
  end.

Definition mini_compile (pattern : string) (fl : flags) : option (bool * regex) :=
  pair fl <$> parse pattern.

(** The engine.  What [parse] refuses counts as a pattern that is not well
    formed.  The law holds by computation: the empty pattern is parsed to
    [Eps], which leaves the whole string, so the match at 0 ends at
    [0 + (len s - len s)]. *)
#[export] Instance engine : ReEngine := {|
  Pattern := bool * regex;
  re_compile := mini_compile;
  compile_exn := fun _ _ => re_error;
  match_at := mini_match_at;
  finditer := fun p s => finditer_from (2 * S (Py.len s)) p s 0 false;
  compile_empty := fun fl =>
    ex_intro _ (fl, Eps)
      (conj eq_refl (fun s => f_equal Some (Nat.sub_diag (Py.len s))));
|}.

End MiniRe.

(** ** The mapped file *)

(** Modelled from the spec: [MappedFile] of [mapped_file.py], which is not
    among the sources.  The index is a table of lines; [line_count] is its
    length; [get_line(i)] is the decoded text of line [i] and fails with an
    out-of-range error when [i] is not the number of an indexed line;
    [get_text(i)] gives the line, its text and the timestamp that leads it,
    if any. *)
Record LineRecord : Type := {
  lr_line : string;
  lr_text : string;
  lr_timestamp : option string;
}.

Record MappedFile : Type := { records : list LineRecord }.

Definition record_at (mf : MappedFile) (i : Z) : option LineRecord :=
  if (0 <=? i)%Z then records mf !! Z.to_nat i else None.

(** ** Texts and strips

    The calls made on a [rich.text.Text] and on a [textual.strip.Strip] are
    kept as they are made; what the libraries draw is not part of the
    model. *)
Inductive Style : Type :=
  | rich_style                 (* [self.rich_style] *)
  | bold_magenta               (* ["bold  magenta"] *)
  | pointer_bold               (* [Style(bgcolor=pointer_style.bgcolor, bold=True)] *)
  | pointer_highlight          (* ["loglines--pointer-highlight"] *)
  | filter_highlight           (* ["loglines--filter-highlight"] *)
  | dim.                       (* ["dim"] *)

Inductive text_call : Type :=
  | stylize_before (style : Style)
  | stylize (style : Style) (span : option (nat * nat))
  | highlight_words (words : list string) (style : Style) (case_sensitive : bool).

Record Text : Type := { plain : string; calls : list text_call }.

Definition call (c : text_call) (text : Text) : Text :=
  {| plain := plain text; calls := calls text ++ [c] |}.

(** [Text.assemble((f"{timestamp} ", "bold  magenta"), text)] *)
Definition assemble (timestamp : string) (text : Text) : Text :=
  let lead := timestamp +:+ " " in
  {| plain := lead +:+ plain text;
     calls := stylize bold_magenta (Some (0, Py.len lead)) :: calls text |}.

Inductive Icon : Type :=
  | pointing_hand              (* the pointer of the gutter *)
  | icon (s : string).

Inductive Strip : Type :=
  | Strip_blank (width : Z) (style : Style)
  | Strip_of (text : Text)     (* [Strip(text.render(console), text.cell_len)] *)
  | crop_extend (strip : Strip) (x1 x2 : Z) (style : option Style)
  | Strip_join (i : Icon) (strip : Strip).

(** ** The widget *)

Record LogLines : Type := {
  mapped_file : MappedFile;
  _render_line_cache : gmap (Z * bool) Strip;
  _max_width : Z;
  _search_index : gmap string string;
  icons : gmap Z string;
  show_find : bool;
  find : string;
  case_sensitive : bool;
  regex : bool;
  show_gutter : bool;
  pointer_line : option Z;
  show_timestamps : bool;
  is_scrolling : Z;
  (* inherited from [ScrollView] *)
  scroll_offset : Z * Z;               (* [(x, y)] *)
  max_scroll_y : Z;
  widget_size : Z * Z;                 (* [self.size]: [(width, height)] *)
  scrollable_content_region_height : Z;
  scroll_to_calls : list (Z * bool);   (* [(y, animate)] of each [scroll_to] *)
}.

(** [self.line_count] *)
Definition line_count (self : LogLines) : Z :=
  Z.of_nat (length (records (mapped_file self))).

(** [self.pointer_line = p].  The message [PointerMoved] that the watcher of
    the attribute posts is not part of the model. *)
Definition with_pointer_line (p : option Z) (self : LogLines) : LogLines :=
  {| mapped_file := mapped_file self;
     _render_line_cache := _render_line_cache self;
     _max_width := _max_width self;
     _search_index := _search_index self;
     icons := icons self;
     show_find := show_find self;
     find := find self;
     case_sensitive := case_sensitive self;
     regex := regex self;
     show_gutter := show_gutter self;
     pointer_line := p;
     show_timestamps := show_timestamps self;
     is_scrolling := is_scrolling self;
     scroll_offset := scroll_offset self;
     max_scroll_y := max_scroll_y self;
     widget_size := widget_size self;
     scrollable_content_region_height := scrollable_content_region_height self;
     scroll_to_calls := scroll_to_calls self |}.

(** [self.is_scrolling += 1] followed by [self.scroll_to(y=y, animate=animate,
    ...)].  The call is recorded as a request.  What [ScrollView.scroll_to]
    does with it is outside the model: the record keeps in [scroll_offset]
    the offset read before the call, although a scroll that is not animated
    is applied at once; and the callback that takes the count down again
    runs when the scroll completes, after the method has returned. *)
Definition with_scroll_to (y : Z) (animate : bool) (self : LogLines) : LogLines :=
  {| mapped_file := mapped_file self;
     _render_line_cache := _render_line_cache self;
     _max_width := _max_width self;
     _search_index := _search_index self;
     icons := icons self;
     show_find := show_find self;
     find := find self;
     case_sensitive := case_sensitive self;
     regex := regex self;
     show_gutter := show_gutter self;
     pointer_line := pointer_line self;
     show_timestamps := show_timestamps self;
     is_scrolling := (is_scrolling self + 1)%Z;
     scroll_offset := scroll_offset self;
     max_scroll_y := max_scroll_y self;
     widget_size := widget_size self;
     scrollable_content_region_height := scrollable_content_region_height self;
     scroll_to_calls := scroll_to_calls self ++ [(y, animate)] |}.

(** The entries of [self._search_index] after the stores of a loop. *)
Definition with_search_index (search_index : gmap string string) (self : LogLines) : LogLines :=
  {| mapped_file := mapped_file self;
     _render_line_cache := _render_line_cache self;
     _max_width := _max_width self;
     _search_index := search_index;
     icons := icons self;
     show_find := show_find self;
     find := find self;
     case_sensitive := case_sensitive self;
     regex := regex self;
     show_gutter := show_gutter self;
     pointer_line := pointer_line self;
     show_timestamps := show_timestamps self;
     is_scrolling := is_scrolling self;
     scroll_offset := scroll_offset self;
     max_scroll_y := max_scroll_y self;
     widget_size := widget_size self;
     scrollable_content_region_height := scrollable_content_region_height self;
     scroll_to_calls := scroll_to_calls self |}.

(** [self._max_width = w] *)
Definition with_max_width (w : Z) (self : LogLines) : LogLines :=
  {| mapped_file := mapped_file self;
     _render_line_cache := _render_line_cache self;
     _max_width := w;
     _search_index := _search_index self;
     icons := icons self;
     show_find := show_find self;
     find := find self;
     case_sensitive := case_sensitive self;
     regex := regex self;
     show_gutter := show_gutter self;
     pointer_line := pointer_line self;
     show_timestamps := show_timestamps self;
     is_scrolling := is_scrolling self;
     scroll_offset := scroll_offset self;
     max_scroll_y := max_scroll_y self;
     widget_size := widget_size self;
     scrollable_content_region_height := scrollable_content_region_height self;
     scroll_to_calls := scroll_to_calls self |}.

(** [self._render_line_cache[cache_key] = strip] *)
Definition with_cached (cache_key : Z * bool) (strip : Strip) (self : LogLines) : LogLines :=
  {| mapped_file := mapped_file self;
     _render_line_cache := LRUCache_set cache_key strip (_render_line_cache self);
     _max_width := _max_width self;
     _search_index := _search_index self;
     icons := icons self;
     show_find := show_find self;
     find := find self;
     case_sensitive := case_sensitive self;
     regex := regex self;
     show_gutter := show_gutter self;
     pointer_line := pointer_line self;
     show_timestamps := show_timestamps self;
     is_scrolling := is_scrolling self;
     scroll_offset := scroll_offset self;
     max_scroll_y := max_scroll_y self;
     widget_size := widget_size self;
     scrollable_content_region_height := scrollable_content_region_height self;
     scroll_to_calls := scroll_to_calls self |}.

(** ** Methods that change the widget

    A method takes the widget and gives its outcome, the widget as it leaves
    it, and the numbers of the lines it asked the mapped file for, in
    order. *)
Definition M (A : Type) : Type := LogLines → outcome A * LogLines * list Z.

Definition ret {A} (a : A) : M A := fun self => (Ret a, self, []).

Definition bind {A B} (m : M A) (f : A → M B) : M B := fun self =>
  match m self with
  | (Ret a, self', reads) =>
      let '(r, self'', reads') := f a self' in (r, self'', reads ++ reads')
  | (Raise e, self', reads) => (Raise e, self', reads)
  end.

Definition get : M LogLines := fun self => (Ret self, self, []).

Definition modify (f : LogLines → LogLines) : M unit :=
  fun self => (Ret tt, f self, []).

Definition lift {A} (o : outcome A) : M A := fun self => (o, self, []).

#[export] Instance M_ret : MRet M := @ret.
#[export] Instance M_bind : MBind M := fun A B f m => bind m f.

(** [self.mapped_file.get_line(line_no)] *)
Definition get_line (line_no : Z) : M string := fun self =>
  match record_at (mapped_file self) line_no with
  | Some r => (Ret (lr_line r), self, [line_no])
  | None => (Raise IndexError, self, [line_no])
  end.

(** [self.mapped_file.get_text(index)] *)
Definition get_text (index : Z) : M (string * Text * option string) := fun self =>
  match record_at (mapped_file self) index with
  | Some r =>
      (Ret (lr_line r, {| plain := lr_text r; calls := [] |}, lr_timestamp r),
       self, [index])
  | None => (Raise IndexError, self, [index])
  end.

Section Methods.
Context `{ReEngine}.

(** [rich.cells.cell_len], the width of a string on the terminal. *)
Variable cell_len : string → Z.

(** The flags both [check_match] and [highlight_find] pass:
    [0 if self.case_sensitive else re.IGNORECASE]. *)
Definition find_flags (self : LogLines) : flags :=
  if case_sensitive self then NOFLAG else IGNORECASE.

(** [LogLines.highlight_find].  The pattern is compiled once, without flags,
    under [try]; a pattern that does not compile leaves the text as it is. *)
Definition highlight_find (self : LogLines) (text : Text) : outcome Text :=
  let filter_style := filter_highlight in
  if regex self then
    match re_compile (find self) NOFLAG with
    | None => Ret text                                   (* Invalid regex *)
    | Some _ =>
        matches ← re_finditer (find self) (plain text) (find_flags self);
        match matches with
        | _ :: _ =>
            Ret (fold_left
                   (fun text span => call (stylize filter_style (Some span)) text)
                   matches text)
        | [] => Ret (call (stylize dim None) text)
        end
    end
  else
    let text' :=
      call (highlight_words [find self] filter_style (case_sensitive self)) text in
    let found :=
      if case_sensitive self then Py.contains (find self) (plain text)
      else Py.contains (Py.lower (find self)) (Py.lower (plain text)) in
    if found then Ret text' else Ret (call (stylize dim None) text').

(** [LogLines.render_line] *)
Definition render_line (y : Z) : M Strip :=
  self ← get;
  let '(scroll_x, scroll_y) := scroll_offset self in
  let index := (y + scroll_y)%Z in
  let style := rich_style in
  let '(width, height) := widget_size self in
  if (line_count self <=? index)%Z then mret (Strip_blank width style)
  else
    let is_pointer :=
      match pointer_line self with
      | Some p => (index =? p)%Z
      | None => false
      end in
    let cache_key := (index, is_pointer) in
    strip ←
      match _render_line_cache self !! cache_key with
      | Some strip => mret strip
      | None =>
          '(line, text, timestamp) ← get_text index;
          let text :=
            match timestamp with
            | Some timestamp =>
                if show_timestamps self then assemble timestamp text else text
            | None => text
            end in
          let text := call (stylize_before style) text in
          let text :=
            if is_pointer then call (stylize pointer_bold None) text else text in
          modify (fun self =>
            with_search_index (observe (_search_index self) (plain text)) self);;
          text ←
            (if negb (Py.falsy (find self)) && show_find self
             then lift (highlight_find self text) else mret text);
          let strip := Strip_of text in
          modify (fun self =>
            with_max_width (Z.max (_max_width self) (cell_len (plain text))) self);;
          modify (with_cached cache_key strip);;
          mret strip
      end;
    let strip :=
      if is_pointer
      then crop_extend strip scroll_x (scroll_x + width) (Some pointer_highlight)
      else crop_extend strip scroll_x (scroll_x + width) None in
    let strip :=
      if show_gutter self then
        let i :=
          if is_pointer then pointing_hand
          else icon (default " " (icons self !! index)) in
        Strip_join i strip
      else strip in
    mret strip.

(** [LogLines.check_match] *)
Definition check_match (self : LogLines) (line : string) : outcome bool :=
  if Py.falsy line then Ret true
  else if regex self then
    m ← re_match (find self) line (find_flags self);
    Ret (bool_decide (m ≠ None))
  else if case_sensitive self then Ret (Py.contains (find self) line)
  else Ret (Py.contains (Py.lower (find self)) (Py.lower line)).

(** The loop of [advance_search]:
<<
    for line_no in line_range:
        line = self.mapped_file.get_line(line_no)
        if check_match(line):
            self.pointer_line = line_no
            break
>> *)
Fixpoint scan (line_range : list Z) : M unit :=
  match line_range with
  | [] => mret tt
  | line_no :: line_range =>
      line ← get_line line_no;
      self ← get;
      matched ← lift (check_match self line);
      if matched : bool then modify (with_pointer_line (Some line_no))
      else scan line_range
  end.

(** [LogLines.advance_search] *)
Definition advance_search (direction : Z) : M unit :=
  self ← get;
  let start_line :=
    match pointer_line self with
    | None => if (direction =? 1)%Z then (scroll_offset self).2 else max_scroll_y self
    | Some pointer_line => (pointer_line + direction)%Z
    end in
  let line_range :=
    if (direction =? 1)%Z then Py.range_up start_line (line_count self)
    else Py.range_down start_line in
  let scroll_y := (scroll_offset self).2 in
  let max_scroll_y := (scroll_y + scrollable_content_region_height self - 1)%Z in
  scan line_range;;
  self ← get;
  match pointer_line self with
  | Some pointer_line =>
      if (pointer_line <? scroll_y)%Z || (max_scroll_y <? pointer_line)%Z then
        let y_offset :=
          (pointer_line - scrollable_content_region_height self / 2)%Z in
        modify (with_scroll_to y_offset
                  (1 <? Z.abs (y_offset - (scroll_offset self).2))%Z)
      else mret tt
  | None => mret tt
  end.

End Methods.

(** ** The other methods of the widget *)

(** [LogLines.clear_caches]: [self._render_line_cache.clear()]. *)
Definition clear_caches (self : LogLines) : LogLines :=
  {| mapped_file := mapped_file self;
     _render_line_cache := ∅;
     _max_width := _max_width self;
     _search_index := _search_index self;
     icons := icons self;
     show_find := show_find self;
     find := find self;
     case_sensitive := case_sensitive self;
     regex := regex self;
     show_gutter := show_gutter self;
     pointer_line := pointer_line self;
     show_timestamps := show_timestamps self;
     is_scrolling := is_scrolling self;
     scroll_offset := scroll_offset self;
     max_scroll_y := max_scroll_y self;
     widget_size := widget_size self;
     scrollable_content_region_height := scrollable_content_region_height self;
     scroll_to_calls := scroll_to_calls self |}.

(** [self.show_gutter = b] *)
Definition with_show_gutter (b : bool) (self : LogLines) : LogLines :=
  {| mapped_file := mapped_file self;
     _render_line_cache := _render_line_cache self;
     _max_width := _max_width self;
     _search_index := _search_index self;
     icons := icons self;
     show_find := show_find self;
     find := find self;
     case_sensitive := case_sensitive self;
     regex := regex self;
     show_gutter := b;
     pointer_line := pointer_line self;
     show_timestamps := show_timestamps self;
     is_scrolling := is_scrolling self;
     scroll_offset := scroll_offset self;
     max_scroll_y := max_scroll_y self;
     widget_size := widget_size self;
     scrollable_content_region_height := scrollable_content_region_height self;
     scroll_to_calls := scroll_to_calls self |}.

(** [LogLines.notify_style_update] *)
Definition notify_style_update (self : LogLines) : LogLines := clear_caches self.

(** [GUTTER_WIDTH = 2] *)
Definition GUTTER_WIDTH : Z := 2.

(** [LogLines.on_idle].  The first component is the [Size] assigned to
    [self.virtual_size], an attribute of [ScrollView].  [not
    self.is_scrolling] holds when the count is 0.
<<
    self.virtual_size = Size(
        self._max_width + (self.GUTTER_WIDTH if self.show_gutter else 0),
        self.mapped_file.line_count,
    )
    if self.pointer_line is not None and not self.is_scrolling:
        scroll_y = self.scroll_offset.y
        if self.pointer_line < scroll_y:
            self.pointer_line = scroll_y
        elif self.pointer_line >= scroll_y + self.scrollable_content_region.height:
            self.pointer_line = scroll_y + self.scrollable_content_region.height - 1
>> *)
Definition on_idle (self : LogLines) : (Z * Z) * LogLines :=
  let virtual_size :=
    ((_max_width self + (if show_gutter self then GUTTER_WIDTH else 0))%Z,
     line_count self) in
  let self' :=
    match pointer_line self with
    | Some pointer_line =>
        if (is_scrolling self =? 0)%Z then
          let scroll_y := (scroll_offset self).2 in
          if (pointer_line <? scroll_y)%Z
          then with_pointer_line (Some scroll_y) self
          else if (scroll_y + scrollable_content_region_height self <=? pointer_line)%Z
          then with_pointer_line
                 (Some (scroll_y + scrollable_content_region_height self - 1)%Z)
                 self
          else self
        else self
    | None => self
    end in
  (virtual_size, self').

(** [LogLines.watch_show_find]; the argument is the new value of the
    attribute.
<<
    self.clear_caches()
    if not show_find:
        self.pointer_line = None
        self.show_gutter = False
>> *)
Definition watch_show_find (show_find : bool) (self : LogLines) : LogLines :=
  let self := clear_caches self in
  if negb show_find
  then with_show_gutter false (with_pointer_line None self)
  else self.

(** [LogLines.watch_find]; the argument is the new value of the attribute.
<<
    if not find:
        self.pointer_line = None
        self.show_gutter = False
    self.clear_caches()
>> *)
Definition watch_find (find : string) (self : LogLines) : LogLines :=
  let self :=
    if Py.falsy find
    then with_show_gutter false (with_pointer_line None self)
    else self in
  clear_caches self.

(** [LogLines.watch_case_sensitive], [watch_regex] and
    [watch_show_timestamps]: each is [self.clear_caches()]. *)
Definition watch_case_sensitive (self : LogLines) : LogLines := clear_caches self.
Definition watch_regex (self : LogLines) : LogLines := clear_caches self.
Definition watch_show_timestamps (self : LogLines) : LogLines := clear_caches self.

(** [LogLines.on_click], for a click on the row [event.y = y] of a widget
    whose gutter starts at [self.gutter.top = top].
<<
    if self.show_find:
        self.show_gutter = True
        self.pointer_line = event.y + self.scroll_offset.y - self.gutter.top
>> *)
Definition on_click (y top : Z) (self : LogLines) : LogLines :=
  if show_find self
  then with_pointer_line (Some (y + (scroll_offset self).2 - top)%Z)
         (with_show_gutter true self)
  else self.

(** ** Sample widgets *)

Definition plain_record (line : string) : LineRecord :=
  {| lr_line := line; lr_text := line; lr_timestamp := None |}.

(** A widget of 80 by 24 cells at the top of a file of the given lines, with
    empty caches, looking for [find]. *)
Definition sample (lines : list string) (find : string) (regex case_sensitive : bool)
    (pointer_line : option Z) : LogLines :=
  {| mapped_file := {| records := map plain_record lines |};
     _render_line_cache := ∅;
     _max_width := 0;
     _search_index := ∅;
     icons := ∅;
     show_find := true;
     find := find;
     case_sensitive := case_sensitive;
     regex := regex;
     show_gutter := true;
     pointer_line := pointer_line;
     show_timestamps := true;
     is_scrolling := 0;
     scroll_offset := (0, 0)%Z;
     max_scroll_y := 0;
     widget_size := (80, 24)%Z;
     scrollable_content_region_height := 24;
     scroll_to_calls := [] |}.

(** Three lines, the second of them empty; the pattern ["("] does not
    compile. *)
Definition broken_regex : LogLines :=
  sample ["info"; ""; "warn"] "(" true false (Some 0%Z).

(** The lines of the scanning example of the specification, with the pointer
    on the matching line. *)
Definition on_error_line : LogLines :=
  sample ["info"; "ERROR: fail"; "warn"] "ERROR" false false (Some 1%Z).

(** A width for the examples: one cell for each character. *)
Definition one_cell_each (s : string) : Z := Z.of_nat (Py.len s).

(** The lines of the scanning example, before any search. *)
Definition fresh_view : LogLines :=
  sample ["info"; "ERROR: fail"; "warn"] "ERROR" false false None.

(** The same lines with the pointer on line 0. *)
Definition on_first_line : LogLines :=
  sample ["info"; "ERROR: fail"; "warn"] "ERROR" false false (Some 0%Z).

(** Forty lines, more than the screen shows, with the match on the last
    one; the pointer is on line 0. *)
Definition long_view : LogLines :=
  sample (repeat "info" 39 ++ ["ERROR: fail"]) "ERROR" false false (Some 0%Z).

(** ** Vocabulary of the statements *)

(** No character of [s] is a delimiter. *)
Fixpoint delimiter_free (s : string) : Prop :=
  match s with
  | EmptyString => True
  | String c s' => SPLIT_REGEX c = false ∧ delimiter_free s'
  end.

(** [s] is empty or ends with a delimiter. *)
Definition cut_at_delimiter (s : string) : Prop :=
  s = "" ∨ ∃ s' d, s = s' +:+ String d "" ∧ SPLIT_REGEX d = true.

(** The line numbers [c + d * i] for [i = s, ..., s + k - 1]. *)
Definition steps (c d : Z) (s k : nat) : list Z :=
  map (fun i => (c + d * Z.of_nat i)%Z) (seq s k).

(** How many lines lie beyond line [c]: after it for the direction 1,
    before it for the others. *)
Definition lines_ahead (self : LogLines) (c direction : Z) : nat :=
  Z.to_nat (if (direction =? 1)%Z then line_count self - (c + 1) else c)%Z.

(** What [advance_search] does once the loop is over: it asks for a scroll
    when the pointer is outside the lines on screen. *)
Definition settle (scroll_y max_scroll_y : Z) (self : LogLines) : LogLines :=
  match pointer_line self with
  | Some pointer_line =>
      if (pointer_line <? scroll_y)%Z || (max_scroll_y <? pointer_line)%Z then
        let y_offset :=
          (pointer_line - scrollable_content_region_height self / 2)%Z in
        with_scroll_to y_offset
          (1 <? Z.abs (y_offset - (scroll_offset self).2))%Z self
      else self
  | None => self
  end.

(** The text [render_line] draws for a record: the timestamp, when there is
    one and timestamps are shown, then a space, then the text. *)
Definition drawn_plain (self : LogLines) (r : LineRecord) : string :=
  match lr_timestamp r with
  | Some timestamp =>
      if show_timestamps self then (timestamp +:+ " ") +:+ lr_text r
      else lr_text r
  | None => lr_text r
  end.

(** The pieces of all the texts. *)
Definition tokens (texts : list string) : list string := flat_map re_split texts.

(** The index after the texts were observed one after the other, from an
    empty index. *)
Definition observe_all (texts : list string) : gmap string string :=
  fold_left observe texts ∅.

(** Every entry of the index holds one of [toks]; its key is the lowercase
    form of the first [k] characters of the value, for a [k] from 1 to the
    length of the value less 2. *)
Definition entries_from (toks : list string) (idx : gmap string string) : Prop :=
  ∀ key value, idx !! key = Some value →
    value ∈ toks
    ∧ ∃ k, 1 ≤ k ∧ k + 2 ≤ Py.len value ∧ key = Py.lower (Py.take k value).

(** Every key is its own lowercase form. *)
Definition keys_lower (idx : gmap string string) : Prop :=
  ∀ key value, idx !! key = Some value → Py.lower key = key.

(** The number of delimiters of a string. *)
Fixpoint count_delimiters (s : string) : nat :=
  match s with
  | EmptyString => 0
  | String c s' => (if SPLIT_REGEX c then 1 else 0) + count_delimiters s'
  end.

(** The lengths of the strings, added up. *)
Definition total_len (l : list string) : nat :=
  foldr (fun w n => Py.len w + n) 0 l.

(** [a +:+ p +:+ b]: [p] with something before and something after. *)
Definition occurs_in (p s : string) : Prop := ∃ a b, s = a +:+ p +:+ b.

(** What [render_line] makes of the strip of the line [index] once it has
    it: the strip is cropped to the width of the widget and, when the gutter
    is shown, joined to the icon of the line. *)
Definition framed (self : LogLines) (index : Z) (strip : Strip) : Strip :=
  let is_pointer := bool_decide (pointer_line self = Some index) in
  let scroll_x := (scroll_offset self).1 in
  let width := (widget_size self).1 in
  let strip :=
    crop_extend strip scroll_x (scroll_x + width)
      (if is_pointer then Some pointer_highlight else None) in
  if show_gutter self
  then Strip_join
         (if is_pointer then pointing_hand
          else icon (default " " (icons self !! index)))
         strip
  else strip.

(** The attributes of the widget that neither drawing nor searching
    assigns. *)
Definition same_settings (self self' : LogLines) : Prop :=
  mapped_file self' = mapped_file self
  ∧ icons self' = icons self
  ∧ show_find self' = show_find self
  ∧ find self' = find self
  ∧ case_sensitive self' = case_sensitive self
  ∧ regex self' = regex self
  ∧ show_gutter self' = show_gutter self
  ∧ show_timestamps self' = show_timestamps self
  ∧ scroll_offset self' = scroll_offset self
  ∧ max_scroll_y self' = max_scroll_y self
  ∧ widget_size self' = widget_size self
  ∧ scrollable_content_region_height self' = scrollable_content_region_height self.

(** What the widget shows and looks for, apart from where it is scrolled
    to and where the pointer is: the attributes a search has no statement
    that assigns, the geometry left out. *)
Definition same_content (self self' : LogLines) : Prop :=
  mapped_file self' = mapped_file self
  ∧ icons self' = icons self
  ∧ show_find self' = show_find self
  ∧ find self' = find self
  ∧ case_sensitive self' = case_sensitive self
  ∧ regex self' = regex self
  ∧ show_gutter self' = show_gutter self
  ∧ show_timestamps self' = show_timestamps self
  ∧ _render_line_cache self' = _render_line_cache self
  ∧ _max_width self' = _max_width self
  ∧ _search_index self' = _search_index self.

(** The line [advance_search] reads first. *)
Definition start_line (self : LogLines) (direction : Z) : Z :=
  match pointer_line self with
  | None => if (direction =? 1)%Z then (scroll_offset self).2 else max_scroll_y self
  | Some pointer_line => (pointer_line + direction)%Z
  end.

(** The lines [advance_search] goes through, in order, until one matches. *)
Definition line_range (self : LogLines) (direction : Z) : list Z :=
  if (direction =? 1)%Z
  then Py.range_up (start_line self direction) (line_count self)
  else Py.range_down (start_line self direction).

(** The last line on screen, as [advance_search] computes it. *)
Definition last_on_screen (self : LogLines) : Z :=
  ((scroll_offset self).2 + scrollable_content_region_height self - 1)%Z.

(** The text [render_line] builds for a record before it highlights what
    was found: the text of the record, led by its timestamp when timestamps
    are shown, in the style of the widget, in bold on the pointer line. *)
Definition drawn_text (self : LogLines) (index : Z) (r : LineRecord) : Text :=
  let text := {| plain := lr_text r; calls := [] |} in
  let text :=
    match lr_timestamp r with
    | Some timestamp =>
        if show_timestamps self then assemble timestamp text else text
    | None => text
    end in
  let text := call (stylize_before rich_style) text in
  if bool_decide (pointer_line self = Some index)
  then call (stylize pointer_bold None) text
  else text.

Section Vocabulary.
Context `{ReEngine}.

(** A predicate the match test can evaluate: a plain string, or a pattern
    that compiles under the flags of the widget. *)
Definition valid_predicate (self : LogLines) : Prop :=
  regex self = true → re_compile (find self) (find_flags self) ≠ None.

(** Line [n] is in the index, and the match test accepts its text. *)
Definition line_matches (self : LogLines) (n : Z) : Prop :=
  ∃ r, record_at (mapped_file self) n = Some r
       ∧ check_match self (lr_line r) = Ret true.

(** The highlighting of [render_line]: [self.highlight_find(text)] when
    there is something to find and the find bar is shown. *)
Definition highlighted (self : LogLines) (text : Text) : outcome Text :=
  if negb (Py.falsy (find self)) && show_find self
  then highlight_find self text
  else Ret text.

End Vocabulary.

(** * Properties *)

(** ** Strings and pieces *)

Lemma startswith_empty (s : string) : Py.startswith "" s = true.
Proof. by destruct s. Qed.

Lemma contains_empty (s : string) : Py.contains "" s = true.
Proof. destruct s; simpl; by rewrite ?startswith_empty. Qed.

Lemma app_nil_l_string (b : string) : "" +:+ b = b.
Proof. reflexivity. Qed.

Lemma app_cons_string (x : ascii) (a b : string) :
  String x a +:+ b = String x (a +:+ b).
Proof. reflexivity. Qed.

Lemma len_app (a b : string) : Py.len (a +:+ b) = Py.len a + Py.len b.
Proof.
  induction a as [|c a IH]; rewrite ?app_nil_l_string, ?app_cons_string; simpl;
    [done | by rewrite IH].
Qed.

Lemma take_app (a b : string) : Py.take (Py.len a) (a +:+ b) = a.
Proof.
  induction a as [|c a IH]; rewrite ?app_nil_l_string, ?app_cons_string; simpl;
    [by destruct b | by rewrite IH].
Qed.

(** [s[:-len(w)]] cuts a non-empty ending [w] off. *)
Lemma drop_last_app (a w : string) :
  w ≠ "" → Py.drop_last (Py.len w) (a +:+ w) = a.
Proof.
  intros Hw. unfold Py.drop_last.
  destruct (Py.len w) as [|n] eqn:E.
  - destruct w; simpl in E; [done | lia].
  - rewrite len_app, E.
    replace (Py.len a + S n - S n) with (Py.len a) by lia.
    apply take_app.
Qed.

Lemma re_split_nonempty (s : string) : re_split s ≠ [].
Proof.
  induction s as [|c s IH]; simpl; [done|].
  destruct (SPLIT_REGEX c); [done|].
  by destruct (re_split s).
Qed.

Lemma app_assoc_string (a b c : string) : (a +:+ b) +:+ c = a +:+ (b +:+ c).
Proof. induction a as [|x a IH]; rewrite ?app_nil_l_string, ?app_cons_string; congruence. Qed.

Ltac string_app :=
  rewrite ?app_assoc_string, ?app_cons_string, ?app_nil_l_string.

(** A string without delimiters is one piece. *)
Lemma re_split_delimiter_free (w : string) : delimiter_free w → re_split w = [w].
Proof.
  induction w as [|c w IH]; simpl; [done|].
  intros [-> Hw]. by rewrite (IH Hw).
Qed.

(** A delimiter separates the pieces before it from the pieces after it. *)
Lemma re_split_app (a b : string) (d : ascii) :
  SPLIT_REGEX d = true →
  re_split (a +:+ String d b) = re_split a ++ re_split b.
Proof.
  intros Hd. induction a as [|c a IH]; string_app; simpl.
  - by rewrite Hd.
  - rewrite IH. destruct (SPLIT_REGEX c); [done|].
    pose proof (re_split_nonempty a).
    by destruct (re_split a).
Qed.

(** After the last delimiter comes the last piece. *)
Lemma last_piece_app (start word : string) :
  delimiter_free word → cut_at_delimiter start →
  last_piece (re_split (start +:+ word)) = word.
Proof.
  intros Hw [->|(s' & d & -> & Hd)]; unfold last_piece; string_app.
  - by rewrite re_split_delimiter_free.
  - rewrite re_split_app; [|done]. rewrite (re_split_delimiter_free word); [|done].
    by rewrite last_last.
Qed.

(** Every string is cut in this way. *)
Lemma cut_exists (s : string) :
  ∃ start word,
    s = start +:+ word ∧ delimiter_free word ∧ cut_at_delimiter start.
Proof.
  induction s as [|c s (start & word & -> & Hw & Hcut)].
  - exists "", "". repeat split. by left.
  - destruct Hcut as [->|(s' & d & -> & Hd)].
    + destruct (SPLIT_REGEX c) eqn:Hc.
      * exists (String c ""), word. repeat split; [done|].
        right. by exists "", c.
      * exists "", (String c word). repeat split; [done..|by left].
    + exists (String c (s' +:+ String d "")), word. repeat split; [done|].
      right. by exists (String c s'), d.
Qed.

(** ** The suggestion index *)

Lemma len_lower (s : string) : Py.len (Py.lower s) = Py.len s.
Proof. induction s as [|c s IH]; simpl; congruence. Qed.

Lemma len_take (n : nat) (s : string) : Py.len (Py.take n s) = n `min` Py.len s.
Proof.
  revert s. induction n as [|n IH]; intros [|c s]; simpl; try done.
  by rewrite IH.
Qed.

(** *** The store of the caches *)

Lemma lookup_set_ne `{Countable K} {V : Type} (key k : K) (v : V)
    (cache : gmap K V) :
  key ≠ k → LRUCache_set k v cache !! key = cache !! key.
Proof.
  intros Hne. unfold LRUCache_set.
  destruct (cache !! k); [done|]. by rewrite lookup_insert_ne.
Qed.

Lemma lookup_set_new `{Countable K} {V : Type} (k : K) (v : V)
    (cache : gmap K V) :
  cache !! k = None → LRUCache_set k v cache !! k = Some v.
Proof.
  intros Hk. unfold LRUCache_set. rewrite Hk. apply lookup_insert_eq.
Qed.

(** A store never replaces a value. *)
Lemma lookup_set_keeps `{Countable K} {V : Type} (key k : K) (v w : V)
    (cache : gmap K V) :
  cache !! key = Some v → LRUCache_set k w cache !! key = Some v.
Proof.
  intros Hkey. unfold LRUCache_set.
  destruct (cache !! k) eqn:Hk; [done|].
  rewrite lookup_insert_ne; [done|]. congruence.
Qed.

(** After a store the key has a value. *)
Lemma lookup_set_is_Some `{Countable K} {V : Type} (k : K) (v : V)
    (cache : gmap K V) :
  is_Some (LRUCache_set k v cache !! k).
Proof.
  unfold LRUCache_set. destruct (cache !! k) eqn:Hk.
  - rewrite Hk. by eexists.
  - rewrite lookup_insert_eq. by eexists.
Qed.

(** *** The loops *)

(** One turn of the inner loop writes at most the key of its own prefix. *)
Lemma index_prefix_other (word key : string) (idx : gmap string string)
    (offset : nat) :
  key ≠ Py.lower (Py.take offset word) →
  index_prefix word idx offset !! key = idx !! key.
Proof.
  intros Hkey. unfold index_prefix.
  destruct (idx !! Py.take offset word) as [stored|];
    [destruct (Py.len stored <? Py.len word)|];
    by rewrite ?lookup_set_ne.
Qed.

(** The loop over a word leaves alone every key that is not as long as one
    of its offsets. *)
Lemma index_word_other (word key : string) (idx : gmap string string) :
  ¬ (1 ≤ Py.len key < Py.len word - 1) →
  index_word idx word !! key = idx !! key.
Proof.
  intros Hkey. unfold index_word.
  destruct (Py.len word <=? 1); [done|].
  assert (Hoff : ∀ offset, offset ∈ Py.range 1 (Py.len word - 1) →
                 key ≠ Py.lower (Py.take offset word)).
  { intros offset Hin ->. apply Hkey.
    unfold Py.range in Hin. apply list_elem_of_In, in_seq in Hin.
    rewrite len_lower, len_take. lia. }
  revert idx Hoff. induction (Py.range 1 (Py.len word - 1)) as [|o l IH];
    intros idx Hoff; simpl; [done|].
  rewrite IH.
  - apply index_prefix_other, Hoff. by left.
  - intros offset Hin. apply Hoff. by right.
Qed.

(** The prefix that lacks only the last character of the word is never a
    key the loop writes. *)
Lemma index_word_skips_longest_prefix (word : string) (idx : gmap string string) :
  let key := Py.lower (Py.take (Py.len word - 1) word) in
  index_word idx word !! key = idx !! key.
Proof.
  intros key. apply index_word_other. unfold key.
  rewrite len_lower, len_take. lia.
Qed.

(** No turn of the loops replaces a value: the guard on the lengths decides
    whether a store is tried, and a store leaves a key that is present as it
    is. *)
Lemma index_prefix_keeps_value (word key v : string) (idx : gmap string string)
    (offset : nat) :
  idx !! key = Some v → index_prefix word idx offset !! key = Some v.
Proof.
  intros Hkey. unfold index_prefix.
  destruct (idx !! Py.take offset word) as [stored|];
    [destruct (Py.len stored <? Py.len word)|];
    by rewrite ?(lookup_set_keeps _ _ v).
Qed.

Lemma index_word_keeps_value (word key v : string) (idx : gmap string string) :
  idx !! key = Some v → index_word idx word !! key = Some v.
Proof.
  unfold index_word. destruct (Py.len word <=? 1); [done|].
  revert idx. induction (Py.range 1 (Py.len word - 1)) as [|o l IH];
    intros idx Hkey; simpl; [done|].
  by apply IH, index_prefix_keeps_value.
Qed.

Lemma observe_keeps_value (text key v : string) (idx : gmap string string) :
  idx !! key = Some v → observe idx text !! key = Some v.
Proof.
  unfold observe. revert idx.
  induction (re_split text) as [|w l IH]; intros idx Hkey; simpl; [done|].
  by apply IH, index_word_keeps_value.
Qed.

(** C2, at the inputs where the code departs from it.  Observing ["ab"] in
    an empty index stores nothing, although ["a"] is a non-empty proper
    prefix of the token ["ab"], of length 2; observing ["abc"] stores ["a"]
    and not the longest proper prefix ["ab"].  And a value that is shorter
    than the new candidate is kept all the same: after ["err2"], observing
    ["error_code_42"] leaves ["err2"] under ["e"]. *)
Theorem observe_departs_from_every_prefix :
  re_split "ab" = ["ab"]
  ∧ observe ∅ "ab" = ∅
  ∧ observe ∅ "abc" !! "a" = Some "abc"
  ∧ observe ∅ "abc" !! "ab" = None
  ∧ observe (observe ∅ "err2") "error_code_42" !! "e" = Some "err2".
Proof. repeat split; vm_compute; reflexivity. Qed.

(** C3.  Whatever texts are observed, one after the other, a key that holds
    a value holds the same value afterwards: no word, shorter or not,
    overwrites a word stored before under the same key, so the value of a
    key is at every time at least as long as each value the key held
    before. *)
Theorem stored_value_is_kept (texts : list string) (key v : string)
    (idx : gmap string string) :
  idx !! key = Some v →
  fold_left observe texts idx !! key = Some v
  ∧ ∃ v', fold_left observe texts idx !! key = Some v'
          ∧ Py.len v ≤ Py.len v'.
Proof.
  intros Hkey.
  assert (Hkept : fold_left observe texts idx !! key = Some v).
  { revert idx Hkey. induction texts as [|t l IH]; intros idx Hkey; simpl;
      [done|].
    by apply IH, observe_keeps_value. }
  split; [done|]. by exists v.
Qed.

(** C5.  [get_suggestion] cuts its input after the last delimiter of
    [SPLIT_REGEX], the set [observe] splits on: the input is [start] followed
    by [word], where [word], the last piece of the split, has no delimiter
    and [start] is empty or ends with one.  The suggestion is [start],
    unchanged, followed by the entry stored under [word.lower()]; there is
    none when [word] is empty and none when there is no such entry. *)
Theorem get_suggestion_spec (search_index : gmap string string) (value : string) :
  ∃ start word,
    value = start +:+ word
    ∧ delimiter_free word
    ∧ cut_at_delimiter start
    ∧ last_piece (re_split value) = word
    ∧ get_suggestion search_index value =
        match word with
        | EmptyString => None
        | String _ _ =>
            match search_index !! Py.lower word with
            | Some search_hit => Some (start +:+ search_hit)
            | None => None
            end
        end.
Proof.
  destruct (cut_exists value) as (start & word & -> & Hword & Hstart).
  exists start, word. repeat split; try done.
  - by apply last_piece_app.
  - unfold get_suggestion. rewrite last_piece_app by assumption.
    destruct word as [|c word]; [done|].
    by rewrite drop_last_app.
Qed.

(** C8.  From an empty index, after ["error_code_42"] is observed the
    suggestion for ["err"] is ["error_code_42"]; observing ["err2"] next
    leaves the entry of ["err"] as it is, and the suggestion with it. *)
Theorem suggest_error_code_42 :
  let first := observe ∅ "error_code_42" in
  let second := observe first "err2" in
  get_suggestion first "err" = Some "error_code_42"
  ∧ second !! "err" = first !! "err"
  ∧ second !! "err" = Some "error_code_42"
  ∧ get_suggestion second "err" = Some "error_code_42".
Proof. repeat split; vm_compute; reflexivity. Qed.

(** ** The match test *)

Section Properties.
Context `{ReEngine}.
Variable cell_len : string → Z.

Ltac run := unfold mbind, mret, M_bind, M_ret, bind, ret, get, modify, lift.

Lemma check_match_returns (self : LogLines) (line : string) :
  valid_predicate self → ∃ b, check_match self line = Ret b.
Proof.
  intros Hvalid. unfold check_match, re_match.
  destruct (Py.falsy line); [by eexists|].
  destruct (regex self) eqn:Hregex.
  - destruct (re_compile (find self) (find_flags self)) eqn:Hc.
    + by eexists.
    + by destruct (Hvalid Hregex).
  - destruct (case_sensitive self); by eexists.
Qed.

(** With a pattern that does not compile, the match test raises on every
    line but the empty one, and what it raises is the exception of the
    compilation. *)
Lemma check_match_raises (self : LogLines) (line : string) :
  regex self = true →
  re_compile (find self) (find_flags self) = None →
  line ≠ "" →
  check_match self line = Raise (compile_exn (find self) (find_flags self)).
Proof.
  intros Hregex Hc Hline. unfold check_match, re_match.
  destruct line; [done|]. simpl. by rewrite Hregex, Hc.
Qed.

(** [highlight_find] leaves the text alone when the pattern does not
    compile. *)
Lemma highlight_find_invalid (self : LogLines) (text : Text) :
  regex self = true →
  re_compile (find self) NOFLAG = None →
  highlight_find self text = Ret text.
Proof. intros Hregex Hc. unfold highlight_find. by rewrite Hregex, Hc. Qed.

(** C9.  The empty line passes the match test whatever the predicate is:
    plain or regex, case-sensitive or not, with any [find], one that does not
    compile included. *)
Theorem check_match_empty_line (self : LogLines) :
  check_match self "" = Ret true.
Proof. reflexivity. Qed.

(** C7.  With the empty [find], the match test accepts every line, in the
    plain and in the regex variant, case-sensitive or not. *)
Theorem check_match_empty_find (self : LogLines) (line : string) :
  find self = "" → check_match self line = Ret true.
Proof.
  intros Hfind. unfold check_match, re_match. rewrite Hfind.
  destruct (Py.falsy line); [done|].
  destruct (regex self).
  - destruct (compile_empty (find_flags self)) as (p & -> & Hp).
    simpl. rewrite Hp. by rewrite bool_decide_eq_true_2.
  - destruct (case_sensitive self); simpl; by rewrite contains_empty.
Qed.

(** What the regex variant computes on a non-empty line, for a pattern that
    compiles. *)
Lemma check_match_regex (self : LogLines) (line : string) (p : Pattern) :
  line ≠ "" →
  regex self = true →
  re_compile (find self) (find_flags self) = Some p →
  check_match self line = Ret (bool_decide (match_at p line 0 ≠ None)).
Proof.
  intros Hline Hregex Hc. unfold check_match, re_match.
  destruct line; [done|]. simpl. by rewrite Hregex, Hc.
Qed.

(** A position where a match starts is found by a search. *)
Lemma re_search_finds (pattern line : string) (fl : flags) (p : Pattern)
    (pos : nat) :
  re_compile pattern fl = Some p →
  pos ≤ Py.len line →
  match_at p line pos ≠ None →
  ∃ span, re_search pattern line fl = Ret (Some span).
Proof.
  intros Hc Hpos Hat. unfold re_search. rewrite Hc.
  destruct (match_at p line pos) as [stop|] eqn:E; [|done].
  assert (Hin : (pos, stop) ∈ omap (λ pos, pair pos <$> match_at p line pos)
                                   (seq 0 (S (Py.len line)))).
  { apply list_elem_of_omap. exists pos. split.
    - apply list_elem_of_In, in_seq. lia.
    - by rewrite E. }
  destruct (omap _ _) as [|span l]; [by apply elem_of_nil in Hin|].
  by exists span.
Qed.

(** C6.  On a non-empty line, with a pattern that compiles, the regex
    variant of the match test gives the answer of a match that starts at
    position 0: true when the pattern matches there, false when it does not.
    So a line where the pattern matches at a position [pos > 0] and not at 0
    is refused, although a search through the line finds the pattern. *)
Theorem check_match_anchored (self : LogLines) (line : string) (p : Pattern) :
  line ≠ "" →
  regex self = true →
  re_compile (find self) (find_flags self) = Some p →
  check_match self line = Ret (bool_decide (match_at p line 0 ≠ None))
  ∧ (match_at p line 0 ≠ None → check_match self line = Ret true)
  ∧ (match_at p line 0 = None → check_match self line = Ret false)
  ∧ ∀ pos, 0 < pos ≤ Py.len line →
           match_at p line pos ≠ None →
           match_at p line 0 = None →
           check_match self line = Ret false
           ∧ ∃ span, re_search (find self) line (find_flags self)
                     = Ret (Some span).
Proof.
  intros Hline Hregex Hc.
  pose proof (check_match_regex self line p Hline Hregex Hc) as Hm.
  repeat split.
  - done.
  - intros H0. by rewrite Hm, bool_decide_eq_true_2.
  - intros H0. rewrite Hm, bool_decide_eq_false_2; [done | auto].
  - rewrite Hm, bool_decide_eq_false_2; [done | auto].
  - apply (re_search_finds _ _ _ p pos); [done | lia | done].
Qed.

(** ** The directional search *)

Lemma steps_cons (c d : Z) (s k : nat) :
  steps c d s (S k) = (c + d * Z.of_nat s)%Z :: steps c d (S s) k.
Proof. reflexivity. Qed.

Lemma count_up_steps (c : Z) (k s : nat) :
  Py.count_up (c + Z.of_nat s) k = steps c 1 s k.
Proof.
  revert s. induction k as [|k IH]; intros s; [done|].
  unfold steps in *. simpl. rewrite <- IH.
  f_equal; try lia. f_equal; lia.
Qed.

Lemma count_down_steps (c : Z) (k s : nat) :
  Py.count_down (c - Z.of_nat s) k = steps c (-1) s k.
Proof.
  revert s. induction k as [|k IH]; intros s; [done|].
  unfold steps in *. simpl. rewrite <- IH.
  f_equal; try lia. f_equal; lia.
Qed.

(** The range [advance_search] builds from the cursor [c]. *)
Lemma line_range_steps (self : LogLines) (c direction : Z) :
  direction = 1%Z ∨ direction = (-1)%Z →
  (if (direction =? 1)%Z
   then Py.range_up (c + direction) (line_count self)
   else Py.range_down (c + direction))
  = steps c direction 1 (lines_ahead self c direction).
Proof.
  unfold lines_ahead, Py.range_up, Py.range_down.
  intros [-> | ->]; simpl.
  - rewrite <- count_up_steps. f_equal.
  - rewrite <- count_down_steps. f_equal. f_equal. lia.
Qed.

Lemma record_at_in_range (self : LogLines) (n : Z) :
  (0 ≤ n < line_count self)%Z →
  ∃ r, record_at (mapped_file self) n = Some r.
Proof.
  intros Hn. unfold record_at, line_count in *.
  destruct (Z.leb_spec 0 n); [|lia].
  apply lookup_lt_is_Some. lia.
Qed.

(** One turn of the loop. *)
Lemma scan_cons (self : LogLines) (line_no : Z) (rest : list Z) (r : LineRecord) :
  record_at (mapped_file self) line_no = Some r →
  scan (line_no :: rest) self =
    match check_match self (lr_line r) with
    | Ret true => (Ret tt, with_pointer_line (Some line_no) self, [line_no])
    | Ret false => let '(o, self', reads) := scan rest self in
                   (o, self', line_no :: reads)
    | Raise e => (Raise e, self, [line_no])
    end.
Proof.
  intros Hr. simpl. run. unfold get_line. rewrite Hr.
  destruct (check_match self (lr_line r)) as [[]|]; try done.
  by destruct (scan rest self) as [[o self'] reads].
Qed.

(** The loop over the lines [c + d * s], [c + d * (s + 1)], ...: it stops at
    the first of them that matches and moves the pointer there, or runs
    through them all and moves nothing. *)
Lemma scan_steps (self : LogLines) (c d : Z) (k s : nat) :
  valid_predicate self →
  (∀ i, s ≤ i < s + k → (0 ≤ c + d * Z.of_nat i < line_count self)%Z) →
  (∃ j, s ≤ j < s + k
        ∧ line_matches self (c + d * Z.of_nat j)
        ∧ (∀ i, s ≤ i < j → ¬ line_matches self (c + d * Z.of_nat i))
        ∧ scan (steps c d s k) self =
            (Ret tt, with_pointer_line (Some (c + d * Z.of_nat j)%Z) self,
             steps c d s (S j - s)))
  ∨ ((∀ i, s ≤ i < s + k → ¬ line_matches self (c + d * Z.of_nat i))
     ∧ scan (steps c d s k) self = (Ret tt, self, steps c d s k)).
Proof.
  intros Hvalid. revert s. induction k as [|k IH]; intros s Hrange.
  - right. split; [intros; lia | done].
  - destruct (record_at_in_range self (c + d * Z.of_nat s)) as [r Hr];
      [apply Hrange; lia|].
    destruct (check_match_returns self (lr_line r) Hvalid) as [b Hb].
    rewrite steps_cons, (scan_cons _ _ _ r Hr), Hb.
    destruct b.
    + left. exists s. repeat split; [lia.. | by exists r | intros; lia |].
      replace (S s - s) with 1 by lia. done.
    + assert (Hs : ¬ line_matches self (c + d * Z.of_nat s)).
      { intros (r' & Hr' & Hm). congruence. }
      destruct (IH (S s)) as [(j & Hj & Hm & Hbefore & ->)|[Hnone ->]].
      * intros i Hi. apply Hrange. lia.
      * left. exists j. repeat split; [lia.. | done | |].
        -- intros i Hi. destruct (decide (i = s)) as [->|]; [done|].
           apply Hbefore. lia.
        -- replace (S j - s) with (S (S j - S s)) by lia. done.
      * right. split; [|done].
        intros i Hi. destruct (decide (i = s)) as [->|]; [done|].
        apply Hnone. lia.
Qed.

Lemma pointer_line_settle (scroll_y max_scroll_y : Z) (self : LogLines) :
  pointer_line (settle scroll_y max_scroll_y self) = pointer_line self.
Proof.
  unfold settle. destruct (pointer_line self) eqn:E; [|done].
  by destruct (_ || _).
Qed.

Lemma advance_search_unfold (self : LogLines) (direction c : Z) :
  pointer_line self = Some c →
  advance_search direction self =
    let line_range :=
      if (direction =? 1)%Z
      then Py.range_up (c + direction) (line_count self)
      else Py.range_down (c + direction) in
    let scroll_y := (scroll_offset self).2 in
    let max_scroll_y :=
      (scroll_y + scrollable_content_region_height self - 1)%Z in
    match scan line_range self with
    | (Ret _, self', reads) => (Ret tt, settle scroll_y max_scroll_y self', reads)
    | (Raise e, self', reads) => (Raise e, self', reads)
    end.
Proof.
  intros Hc. unfold advance_search. run. rewrite Hc. simpl.
  destruct (scan _ self) as [[[[]|e] self'] reads]; [|done].
  unfold settle. destruct (pointer_line self') as [p|]; simpl.
  - destruct (_ || _); simpl; by rewrite app_nil_r.
  - by rewrite app_nil_r.
Qed.

Lemma record_at_Some (self : LogLines) (n : Z) (r : LineRecord) :
  record_at (mapped_file self) n = Some r → (0 ≤ n < line_count self)%Z.
Proof.
  unfold record_at, line_count. destruct (Z.leb_spec 0 n); [|done].
  intros Hr%lookup_lt_Some. lia.
Qed.

(** C4, as the code has it.  From a cursor [c] that is a line of the index or
    next to one, with a predicate the match test can evaluate,
    [advance_search] reads the lines [c + direction], [c + 2 * direction],
    ... in this order, up to the last line of the index for the direction 1
    and down to line 0 for the direction -1.  It stops at the first line that
    matches and moves the pointer there.  When no line on the way matches it
    reads them all and leaves the pointer on [c]. *)
Theorem advance_search_from_cursor (self : LogLines) (direction c : Z) :
  (direction = 1 ∧ -1 ≤ c)%Z ∨ (direction = -1 ∧ c ≤ line_count self)%Z →
  pointer_line self = Some c →
  valid_predicate self →
  ∃ self' reads,
    advance_search direction self = (Ret tt, self', reads)
    ∧ ((∃ j, 1 ≤ j ≤ lines_ahead self c direction
             ∧ line_matches self (c + direction * Z.of_nat j)
             ∧ (∀ i, 1 ≤ i < j →
                  ¬ line_matches self (c + direction * Z.of_nat i))
             ∧ pointer_line self' = Some (c + direction * Z.of_nat j)%Z
             ∧ reads = steps c direction 1 j)
       ∨ ((∀ i, 1 ≤ i ≤ lines_ahead self c direction →
             ¬ line_matches self (c + direction * Z.of_nat i))
          ∧ pointer_line self' = Some c
          ∧ reads = steps c direction 1 (lines_ahead self c direction))).
Proof.
  intros Hdir Hc Hvalid.
  rewrite (advance_search_unfold self direction c Hc). cbv zeta.
  rewrite line_range_steps by (destruct Hdir as [[-> _]|[-> _]]; auto).
  destruct (scan_steps self c direction (lines_ahead self c direction) 1 Hvalid)
    as [(j & Hj & Hm & Hbefore & ->)|[Hnone ->]].
  - intros i Hi. unfold lines_ahead in *.
    destruct Hdir as [[-> Hlo]|[-> Hhi]]; simpl in *; lia.
  - eexists _, _. split; [done|]. left. exists j.
    rewrite pointer_line_settle. simpl.
    repeat split; [lia.. | done | | ].
    + intros i Hi. apply Hbefore. lia.
    + f_equal. lia.
  - eexists _, _. split; [done|]. right.
    rewrite pointer_line_settle.
    repeat split; [|done].
    intros i Hi. apply Hnone. lia.
Qed.

(** C1, as the code has it.  With the regex variant and a pattern that does
    not compile, the empty line still passes the match test, which answers
    before it looks at the pattern; so when the next line [advance_search]
    reads is empty, it moves the pointer to that line and returns. *)
Theorem invalid_regex_empty_line (self : LogLines) (direction c : Z)
    (r : LineRecord) :
  regex self = true →
  re_compile (find self) (find_flags self) = None →
  direction = 1%Z ∨ direction = (-1)%Z →
  pointer_line self = Some c →
  record_at (mapped_file self) (c + direction) = Some r →
  lr_line r = "" →
  check_match self (lr_line r) = Ret true
  ∧ ∃ self',
      advance_search direction self = (Ret tt, self', [(c + direction)%Z])
      ∧ pointer_line self' = Some (c + direction)%Z.
Proof.
  intros Hregex Hinvalid Hdir Hc Hr Hline.
  rewrite Hline. split; [done|].
  pose proof (record_at_Some _ _ _ Hr) as Hin.
  rewrite (advance_search_unfold self direction c Hc). cbv zeta.
  rewrite line_range_steps by done.
  assert (Hahead : ∃ k, lines_ahead self c direction = S k).
  { unfold lines_ahead. destruct Hdir as [-> | ->]; simpl.
    - exists (Z.to_nat (line_count self - (c + 1)) - 1). lia.
    - exists (Z.to_nat c - 1). lia. }
  destruct Hahead as [k ->].
  rewrite steps_cons.
  replace (c + direction * Z.of_nat 1)%Z with (c + direction)%Z by lia.
  rewrite (scan_cons _ _ _ r Hr), Hline. simpl.
  eexists. split; [done|].
  by rewrite pointer_line_settle.
Qed.

(** ** Rendering *)

(** C10.  A row whose line number [y + scroll_y] is not below the line count
    is drawn as a blank strip of the width of the widget; the mapped file is
    not asked for any line and the widget is left as it was. *)
Theorem render_line_beyond_index (self : LogLines) (y : Z) :
  (line_count self ≤ y + (scroll_offset self).2)%Z →
  render_line cell_len y self =
    (Ret (Strip_blank (widget_size self).1 rich_style), self, []).
Proof.
  intros Hy. unfold render_line. run.
  destruct (scroll_offset self) as [scroll_x scroll_y].
  destruct (widget_size self) as [width height]. simpl in *.
  destruct (Z.leb_spec (line_count self) (y + scroll_y)); [done | lia].
Qed.

(** Drawing a line that is not in the cache of strips observes its text,
    whether or not the highlighting that follows raises. *)
Lemma render_line_observes (self : LogLines) (y : Z) (r : LineRecord) :
  let index := (y + (scroll_offset self).2)%Z in
  let is_pointer := bool_decide (pointer_line self = Some index) in
  record_at (mapped_file self) index = Some r →
  _render_line_cache self !! (index, is_pointer) = None →
  ∃ o self',
    render_line cell_len y self = (o, self', [index])
    ∧ _search_index self' = observe (_search_index self) (drawn_plain self r).
Proof.
  intros index is_pointer Hr Hmiss.
  pose proof (record_at_Some _ _ _ Hr) as Hin.
  unfold render_line. run. subst index is_pointer.
  destruct (scroll_offset self) as [scroll_x scroll_y] eqn:Hso.
  destruct (widget_size self) as [width height]. simpl in *.
  destruct (Z.leb_spec (line_count self) (y + scroll_y)); [lia|].
  assert (Hp : match pointer_line self with
               | Some p => (y + scroll_y =? p)%Z
               | None => false
               end = bool_decide (pointer_line self = Some (y + scroll_y)%Z)).
  { destruct (pointer_line self) as [p|]; [|done].
    destruct (Z.eqb_spec (y + scroll_y) p) as [->|Hne].
    - by rewrite bool_decide_eq_true_2.
    - rewrite bool_decide_eq_false_2; [done|]. congruence. }
  rewrite Hp, Hmiss. unfold get_text. rewrite Hr. simpl.
  assert (Hplain : ∀ t,
    plain (if bool_decide (pointer_line self = Some (y + scroll_y)%Z)
           then call (stylize pointer_bold None) (call (stylize_before rich_style) t)
           else call (stylize_before rich_style) t) = plain t).
  { intros t. by destruct (bool_decide _). }
  assert (Hdrawn : plain
    match lr_timestamp r with
    | Some timestamp =>
        if show_timestamps self
        then assemble timestamp {| plain := lr_text r; calls := [] |}
        else {| plain := lr_text r; calls := [] |}
    | None => {| plain := lr_text r; calls := [] |}
    end = drawn_plain self r).
  { unfold drawn_plain. destruct (lr_timestamp r); [|done].
    by destruct (show_timestamps self). }
  destruct (negb (Py.falsy (find self)) && show_find self).
  - destruct (highlight_find _ _) as [text|e]; simpl.
    + destruct (show_gutter self); eexists _, _; (split; [done|]); simpl;
        by rewrite Hplain, Hdrawn.
    + eexists _, _. split; [done|]. simpl. by rewrite Hplain, Hdrawn.
  - simpl. destruct (show_gutter self); eexists _, _; (split; [done|]); simpl;
      by rewrite Hplain, Hdrawn.
Qed.

End Properties.

(** * Further properties *)

(** ** Pieces *)

Lemma re_split_pieces_free (s : string) : Forall delimiter_free (re_split s).
Proof.
  induction s as [|c s IH]; simpl.
  - by repeat constructor.
  - destruct (SPLIT_REGEX c) eqn:Hc; [by constructor|].
    destruct (re_split s) as [|w ws]; [by repeat constructor|].
    inversion IH; subst. by constructor.
Qed.

(** X1.  [re.split(SPLIT_REGEX, s)] gives one piece more than [s] has
    delimiters; no piece holds a delimiter; and the pieces and the delimiters
    together are as long as [s]: nothing but the delimiters is dropped. *)
Theorem re_split_accounts (s : string) :
  Forall delimiter_free (re_split s)
  ∧ length (re_split s) = S (count_delimiters s)
  ∧ total_len (re_split s) + count_delimiters s = Py.len s.
Proof.
  split; [apply re_split_pieces_free|].
  induction s as [|c s [IHn IHl]]; simpl; [done|].
  destruct (SPLIT_REGEX c); simpl.
  - split; [by rewrite IHn | lia].
  - pose proof (re_split_nonempty s) as Hne.
    destruct (re_split s) as [|w ws]; [done|].
    simpl in *. split; [done | lia].
Qed.

(** ** Entries of the index *)

Lemma lower_char_idem (c : ascii) :
  Py.lower_char (Py.lower_char c) = Py.lower_char c.
Proof. destruct c as [[] [] [] [] [] [] [] []]; reflexivity. Qed.

Lemma lower_idem (s : string) : Py.lower (Py.lower s) = Py.lower s.
Proof.
  induction s as [|c s IH]; simpl; [done|]. by rewrite lower_char_idem, IH.
Qed.

Lemma set_entries (toks : list string) (word : string)
    (idx : gmap string string) (offset : nat) :
  entries_from toks idx → word ∈ toks →
  1 ≤ offset → offset + 2 ≤ Py.len word →
  entries_from toks (LRUCache_set (Py.lower (Py.take offset word)) word idx).
Proof.
  intros Hidx Hword Hlo Hhi key value. unfold LRUCache_set.
  destruct (idx !! Py.lower (Py.take offset word)); [apply Hidx|].
  rewrite lookup_insert. case_decide as Hk; [|apply Hidx].
  intros [= <-]. subst key. split; [done|]. by exists offset.
Qed.

Lemma index_prefix_entries (toks : list string) (word : string)
    (idx : gmap string string) (offset : nat) :
  entries_from toks idx → word ∈ toks →
  1 ≤ offset → offset + 2 ≤ Py.len word →
  entries_from toks (index_prefix word idx offset).
Proof.
  intros Hidx Hword Hlo Hhi.
  pose proof (set_entries toks word idx offset Hidx Hword Hlo Hhi) as Hnew.
  unfold index_prefix.
  destruct (idx !! Py.take offset word) as [stored|]; [|done].
  by destruct (Py.len stored <? Py.len word).
Qed.

Lemma index_word_entries (toks : list string) (word : string)
    (idx : gmap string string) :
  entries_from toks idx → word ∈ toks → entries_from toks (index_word idx word).
Proof.
  intros Hidx Hword. unfold index_word.
  destruct (Py.len word <=? 1); [done|].
  assert (Hoff : ∀ offset, offset ∈ Py.range 1 (Py.len word - 1) →
                 1 ≤ offset ∧ offset + 2 ≤ Py.len word).
  { intros offset Hin. unfold Py.range in Hin.
    apply list_elem_of_In, in_seq in Hin. lia. }
  revert idx Hidx Hoff. induction (Py.range 1 (Py.len word - 1)) as [|o l IH];
    intros idx Hidx Hoff; simpl; [done|].
  apply IH.
  - destruct (Hoff o) as [Hlo Hhi]; [by left|].
    by apply index_prefix_entries.
  - intros offset Hin. apply Hoff. by right.
Qed.

Lemma fold_index_word_entries (toks words : list string)
    (idx : gmap string string) :
  entries_from toks idx → (∀ w, w ∈ words → w ∈ toks) →
  entries_from toks (fold_left index_word words idx).
Proof.
  revert idx. induction words as [|w words IH]; intros idx Hidx Hsub; simpl;
    [done|].
  apply IH.
  - apply index_word_entries; [done|]. apply Hsub. by left.
  - intros w' Hin. apply Hsub. by right.
Qed.

Lemma fold_observe_entries (toks texts : list string)
    (idx : gmap string string) :
  entries_from toks idx →
  (∀ text w, text ∈ texts → w ∈ re_split text → w ∈ toks) →
  entries_from toks (fold_left observe texts idx).
Proof.
  revert idx. induction texts as [|t texts IH]; intros idx Hidx Hsub; simpl;
    [done|].
  apply IH.
  - apply fold_index_word_entries; [done|].
    intros w Hw. apply (Hsub t); [by left | done].
  - intros text w Hin. apply Hsub. by right.
Qed.

Lemma observe_all_entries_from (texts : list string) :
  entries_from (tokens texts) (observe_all texts).
Proof.
  apply fold_observe_entries.
  - intros key value. by rewrite lookup_empty.
  - intros text w Ht Hw. unfold tokens.
    apply list_elem_of_In, in_flat_map. exists text.
    split; by apply list_elem_of_In.
Qed.

(** X2.  In an index filled by observing texts, from an empty one, every
    value is a piece of one of the texts, and its key is the lowercase form
    of the first [k] characters of the value, for a [k] that is at least 1
    and at most the length of the value less 2. *)
Theorem observe_all_entries (texts : list string) (key value : string) :
  observe_all texts !! key = Some value →
  value ∈ tokens texts
  ∧ ∃ k, 1 ≤ k ∧ k + 2 ≤ Py.len value ∧ key = Py.lower (Py.take k value).
Proof. apply observe_all_entries_from. Qed.

(** X3.  A suggestion made from such an index is made for the last piece
    of the input, which is not empty: it keeps what comes before this piece
    and puts in its place a piece of an observed text, one whose first [k]
    characters have the lowercase form of the piece typed, with at least two
    characters after them. *)
Theorem get_suggestion_completes (texts : list string) (value suggestion : string) :
  get_suggestion (observe_all texts) value = Some suggestion →
  ∃ start word hit k,
    value = start +:+ word
    ∧ word = last_piece (re_split value)
    ∧ word ≠ ""
    ∧ suggestion = start +:+ hit
    ∧ observe_all texts !! Py.lower word = Some hit
    ∧ hit ∈ tokens texts
    ∧ 1 ≤ k ∧ k + 2 ≤ Py.len hit
    ∧ Py.lower word = Py.lower (Py.take k hit).
Proof.
  destruct (cut_exists value) as (start & word & -> & Hword & Hstart).
  unfold get_suggestion. rewrite last_piece_app by assumption.
  destruct word as [|c word]; [done|].
  rewrite drop_last_app by done. simpl Py.falsy. cbv iota.
  destruct (observe_all texts !! Py.lower (String c word)) as [hit|] eqn:E; [|done].
  intros [= <-].
  destruct (observe_all_entries_from texts _ _ E) as (Hin & k & Hlo & Hhi & Hkey).
  exists start, (String c word), hit, k. by repeat split.
Qed.

Lemma set_keys_lower (word : string) (idx : gmap string string) (offset : nat) :
  keys_lower idx →
  keys_lower (LRUCache_set (Py.lower (Py.take offset word)) word idx).
Proof.
  intros Hidx key value. unfold LRUCache_set.
  destruct (idx !! Py.lower (Py.take offset word)); [apply Hidx|].
  rewrite lookup_insert. case_decide as Hk; [|apply Hidx].
  intros _. subst key. apply lower_idem.
Qed.

Lemma index_prefix_keys_lower (word : string) (idx : gmap string string)
    (offset : nat) :
  keys_lower idx → keys_lower (index_prefix word idx offset).
Proof.
  intros Hidx. pose proof (set_keys_lower word idx offset Hidx) as Hnew.
  unfold index_prefix.
  destruct (idx !! Py.take offset word) as [stored|]; [|done].
  by destruct (Py.len stored <? Py.len word).
Qed.

(** No turn of the inner loop removes an entry. *)
Lemma index_prefix_keeps (word key : string) (idx : gmap string string)
    (offset : nat) :
  is_Some (idx !! key) → is_Some (index_prefix word idx offset !! key).
Proof.
  intros [v Hv]. exists v. by apply index_prefix_keeps_value.
Qed.

(** After its turn, the prefix has an entry. *)
Lemma index_prefix_sets (word : string) (idx : gmap string string) (offset : nat) :
  keys_lower idx →
  is_Some (index_prefix word idx offset !! Py.lower (Py.take offset word)).
Proof.
  intros Hidx. unfold index_prefix.
  destruct (idx !! Py.take offset word) as [stored|] eqn:E.
  - destruct (Py.len stored <? Py.len word).
    + apply lookup_set_is_Some.
    + rewrite (Hidx _ _ E), E. by eexists.
  - apply lookup_set_is_Some.
Qed.

Lemma fold_index_prefix_keeps (word key : string) (offsets : list nat)
    (idx : gmap string string) :
  is_Some (idx !! key) →
  is_Some (fold_left (index_prefix word) offsets idx !! key).
Proof.
  revert idx. induction offsets as [|o l IH]; intros idx Hkey; simpl; [done|].
  by apply IH, index_prefix_keeps.
Qed.

Lemma fold_index_prefix_keys_lower (word : string) (offsets : list nat)
    (idx : gmap string string) :
  keys_lower idx → keys_lower (fold_left (index_prefix word) offsets idx).
Proof.
  revert idx. induction offsets as [|o l IH]; intros idx Hidx; simpl; [done|].
  by apply IH, index_prefix_keys_lower.
Qed.

Lemma index_word_keeps (word key : string) (idx : gmap string string) :
  is_Some (idx !! key) → is_Some (index_word idx word !! key).
Proof.
  intros Hkey. unfold index_word. destruct (Py.len word <=? 1); [done|].
  by apply fold_index_prefix_keeps.
Qed.

Lemma index_word_keys_lower (word : string) (idx : gmap string string) :
  keys_lower idx → keys_lower (index_word idx word).
Proof.
  intros Hidx. unfold index_word. destruct (Py.len word <=? 1); [done|].
  by apply fold_index_prefix_keys_lower.
Qed.

Lemma index_word_sets (word : string) (idx : gmap string string) (k : nat) :
  keys_lower idx → 1 ≤ k → k + 2 ≤ Py.len word →
  is_Some (index_word idx word !! Py.lower (Py.take k word)).
Proof.
  intros Hidx Hlo Hhi. unfold index_word.
  destruct (Nat.leb_spec (Py.len word) 1); [lia|].
  assert (Hin : k ∈ Py.range 1 (Py.len word - 1)).
  { unfold Py.range. apply list_elem_of_In, in_seq. lia. }
  revert idx Hidx Hin. induction (Py.range 1 (Py.len word - 1)) as [|o l IH];
    intros idx Hidx Hin; simpl.
  - by apply elem_of_nil in Hin.
  - apply elem_of_cons in Hin as [<-|Hin].
    + by apply fold_index_prefix_keeps, index_prefix_sets.
    + apply IH; [by apply index_prefix_keys_lower | done].
Qed.

Lemma fold_index_word_keeps (key : string) (words : list string)
    (idx : gmap string string) :
  is_Some (idx !! key) → is_Some (fold_left index_word words idx !! key).
Proof.
  revert idx. induction words as [|w l IH]; intros idx Hkey; simpl; [done|].
  by apply IH, index_word_keeps.
Qed.

Lemma fold_index_word_keys_lower (words : list string) (idx : gmap string string) :
  keys_lower idx → keys_lower (fold_left index_word words idx).
Proof.
  revert idx. induction words as [|w l IH]; intros idx Hidx; simpl; [done|].
  by apply IH, index_word_keys_lower.
Qed.

Lemma observe_sets (text w : string) (idx : gmap string string) (k : nat) :
  keys_lower idx → w ∈ re_split text → 1 ≤ k → k + 2 ≤ Py.len w →
  is_Some (observe idx text !! Py.lower (Py.take k w)).
Proof.
  intros Hidx Hw Hlo Hhi. unfold observe.
  revert idx Hidx Hw. induction (re_split text) as [|w' l IH];
    intros idx Hidx Hw; simpl.
  - by apply elem_of_nil in Hw.
  - apply elem_of_cons in Hw as [<-|Hw].
    + by apply fold_index_word_keeps, index_word_sets.
    + apply IH; [by apply index_word_keys_lower | done].
Qed.

Lemma fold_observe_keeps (key : string) (texts : list string)
    (idx : gmap string string) :
  is_Some (idx !! key) → is_Some (fold_left observe texts idx !! key).
Proof.
  revert idx. induction texts as [|t l IH]; intros idx Hkey; simpl; [done|].
  by apply IH, fold_index_word_keeps.
Qed.

Lemma fold_observe_sets (texts : list string) (text w : string)
    (idx : gmap string string) (k : nat) :
  keys_lower idx → text ∈ texts → w ∈ re_split text →
  1 ≤ k → k + 2 ≤ Py.len w →
  is_Some (fold_left observe texts idx !! Py.lower (Py.take k w)).
Proof.
  intros Hidx Ht Hw Hlo Hhi.
  revert idx Hidx Ht. induction texts as [|t l IH]; intros idx Hidx Ht; simpl.
  - by apply elem_of_nil in Ht.
  - apply elem_of_cons in Ht as [<-|Ht].
    + by apply fold_observe_keeps, observe_sets.
    + apply IH; [by apply fold_index_word_keys_lower | done].
Qed.

Lemma delimiter_free_take (k : nat) (w : string) :
  delimiter_free w → delimiter_free (Py.take k w).
Proof.
  revert w. induction k as [|k IH]; intros [|c w]; simpl; try done.
  intros [Hc Hw]. split; [done | by apply IH].
Qed.

(** X4.  Once a text is observed, the first [k] characters of each of its
    pieces get a suggestion, for every [k] from 1 to the length of the piece
    less 2; whatever is observed later, a suggestion stays. *)
Theorem observed_prefix_is_suggested (texts : list string) (text w : string)
    (k : nat) :
  text ∈ texts → w ∈ re_split text →
  1 ≤ k → k + 2 ≤ Py.len w →
  ∃ hit, get_suggestion (observe_all texts) (Py.take k w) = Some hit.
Proof.
  intros Ht Hw Hlo Hhi.
  assert (Hempty : keys_lower ∅).
  { intros key value. by rewrite lookup_empty. }
  destruct (fold_observe_sets texts text w ∅ k Hempty Ht Hw Hlo Hhi) as [hit Hhit].
  exists hit.
  assert (Hfree : delimiter_free (Py.take k w)).
  { apply delimiter_free_take.
    pose proof (re_split_pieces_free text) as Hall.
    rewrite Forall_forall in Hall. by apply Hall. }
  assert (Hne : Py.take k w ≠ "").
  { intros E. pose proof (len_take k w) as Hl. rewrite E in Hl. simpl in Hl. lia. }
  pose proof (last_piece_app "" (Py.take k w) Hfree (or_introl eq_refl)) as Hlast.
  pose proof (drop_last_app "" (Py.take k w) Hne) as Hstart.
  rewrite app_nil_l_string in Hlast, Hstart.
  unfold get_suggestion. rewrite Hlast, Hstart.
  destruct (Py.take k w) as [|c p]; [done|]. simpl Py.falsy. cbv iota.
  unfold observe_all. by rewrite Hhit.
Qed.

(** ** Texts without capital letters *)


(** ** Keys that are left alone *)



(** ** The match test, again *)

Lemma startswith_spec (p s : string) :
  Py.startswith p s = true ↔ ∃ b, s = p +:+ b.
Proof.
  revert s. induction p as [|x p IH]; intros s; simpl.
  - split; [|done]. intros _. by exists s.
  - destruct s as [|y s].
    + split; [done|]. intros [b Hb]. by rewrite app_cons_string in Hb.
    + destruct (Ascii.eqb_spec x y) as [->|Hne]; rewrite ?IH.
      * split; intros [b Hb]; exists b; rewrite app_cons_string in *; congruence.
      * split; [done|]. intros [b Hb]. rewrite app_cons_string in Hb. congruence.
Qed.

Lemma contains_spec (p s : string) :
  Py.contains p s = true ↔ occurs_in p s.
Proof.
  unfold occurs_in. split.
  - induction s as [|c s IH]; simpl; rewrite orb_true_iff, startswith_spec.
    + intros [[b Hb]|]; [|done]. by exists "", b.
    + intros [[b Hb]|Hs].
      * by exists "", b.
      * destruct (IH Hs) as (a & b & ->). by exists (String c a), b.
  - intros (a & b & ->). induction a as [|c a IH]; string_app.
    + destruct (p +:+ b) eqn:E; simpl; rewrite orb_true_iff; left;
        apply startswith_spec; exists b; by rewrite E.
    + simpl. rewrite IH. apply orb_true_r.
Qed.

Lemma falsy_lower (s : string) : Py.falsy (Py.lower s) = Py.falsy s.
Proof. by destruct s. Qed.

Section MoreProperties.
Context `{ReEngine}.
Variable cell_len : string → Z.

Ltac run := unfold mbind, mret, M_bind, M_ret, bind, ret, get, modify, lift.

(** X7.  The match test raises in one case only: the regex variant, a line
    that is not empty, and a pattern that [re.compile] refuses under the
    flags of the widget; what it raises then is the exception of the
    compilation: [re.error] for a pattern that is not well formed,
    [OverflowError] for a repetition count that is too large.  In every
    other case it returns. *)
Theorem check_match_raises_iff (self : LogLines) (line : string) (e : exn) :
  check_match self line = Raise e
  ↔ line ≠ "" ∧ regex self = true
    ∧ re_compile (find self) (find_flags self) = None
    ∧ e = compile_exn (find self) (find_flags self).
Proof.
  unfold check_match, re_match. destruct line as [|c line]; simpl.
  { split; [done | by intros (? & _)]. }
  destruct (regex self).
  - destruct (re_compile (find self) (find_flags self)); simpl.
    + split; [done | by intros (_ & _ & ? & _)].
    + split; [by intros [= <-] | by intros (_ & _ & _ & ->)].
  - destruct (case_sensitive self); (split; [done | by intros (_ & ? & _)]).
Qed.

(** X8.  In the plain variant the match test accepts the empty line and the
    lines [find] occurs in: as it is when the test is case-sensitive, and
    otherwise with both [find] and the line taken to lowercase. *)
Theorem check_match_plain (self : LogLines) (line : string) :
  regex self = false →
  (check_match self line = Ret true
   ↔ line = ""
     ∨ if case_sensitive self then occurs_in (find self) line
       else occurs_in (Py.lower (find self)) (Py.lower line)).
Proof.
  intros Hregex. unfold check_match. rewrite Hregex.
  destruct line as [|c line]; simpl Py.falsy; cbv iota.
  { split; [by left | done]. }
  destruct (case_sensitive self).
  - pose proof (contains_spec (find self) (String c line)) as Hs.
    split; [intros [= Hm]; right; by apply Hs|].
    intros [|Ho]; [done|]. apply Hs in Ho. by rewrite Ho.
  - pose proof (contains_spec (Py.lower (find self)) (Py.lower (String c line)))
      as Hs.
    split; [intros [= Hm]; right; by apply Hs|].
    intros [|Ho]; [done|]. apply Hs in Ho. by rewrite Ho.
Qed.

(** X10.  In the plain variant without case sensitivity, the answer of the
    match test depends on [find] and on the line through their lowercase
    forms only. *)
Theorem check_match_ignores_case (self self' : LogLines) (line line' : string) :
  regex self = false → regex self' = false →
  case_sensitive self = false → case_sensitive self' = false →
  Py.lower (find self') = Py.lower (find self) →
  Py.lower line' = Py.lower line →
  check_match self' line' = check_match self line.
Proof.
  intros Hr Hr' Hc Hc' Hfind Hline. unfold check_match.
  rewrite Hr, Hr', Hc, Hc', Hfind, Hline.
  by rewrite <- (falsy_lower line), <- (falsy_lower line'), Hline.
Qed.

(** ** The directional search, again *)

Lemma scan_cons_missing (self : LogLines) (line_no : Z) (rest : list Z) :
  record_at (mapped_file self) line_no = None →
  scan (line_no :: rest) self = (Raise IndexError, self, [line_no]).
Proof. intros Hr. simpl. run. unfold get_line. by rewrite Hr. Qed.

(** The loop either stops on a line that matches, with the pointer on it, or
    leaves the widget as it was. *)
Lemma scan_outcome (self : LogLines) (l : list Z) :
  (∃ n r reads,
      record_at (mapped_file self) n = Some r
      ∧ check_match self (lr_line r) = Ret true
      ∧ n ∈ reads
      ∧ scan l self = (Ret tt, with_pointer_line (Some n) self, reads))
  ∨ (∃ o reads, scan l self = (o, self, reads)).
Proof.
  induction l as [|n l IH].
  - right. by exists (Ret tt), [].
  - destruct (record_at (mapped_file self) n) as [r|] eqn:Hr.
    + rewrite (scan_cons _ _ _ r Hr).
      destruct (check_match self (lr_line r)) as [[]|e] eqn:Hm.
      * left. exists n, r, [n]. repeat split; try done. by left.
      * destruct IH as [(n' & r' & reads & Hr' & Hm' & Hin & ->)
                       |(o & reads & ->)].
        -- left. exists n', r', (n :: reads). repeat split; try done. by right.
        -- right. by eexists _, _.
      * right. by eexists _, _.
    + rewrite (scan_cons_missing _ _ _ Hr). right. by eexists _, _.
Qed.

Lemma advance_search_unfold_any (self : LogLines) (direction : Z) :
  advance_search direction self =
    match scan (line_range self direction) self with
    | (Ret _, self', reads) =>
        (Ret tt, settle (scroll_offset self).2 (last_on_screen self) self', reads)
    | (Raise e, self', reads) => (Raise e, self', reads)
    end.
Proof.
  unfold advance_search, line_range, start_line, last_on_screen. run.
  destruct (scan _ self) as [[[[]|e] self'] reads]; [|done].
  unfold settle. destruct (pointer_line self') as [p|]; simpl.
  - destruct (_ || _); simpl; by rewrite app_nil_r.
  - by rewrite app_nil_r.
Qed.

(** The search raises and leaves the widget as it was, or returns after the
    loop and the request for a scroll. *)
Lemma advance_search_outcome (self self' : LogLines) (direction : Z)
    (o : outcome unit) (reads : list Z) :
  advance_search direction self = (o, self', reads) →
  (∃ e, o = Raise e ∧ self' = self)
  ∨ (o = Ret tt
     ∧ ∃ self1,
         self' = settle (scroll_offset self).2 (last_on_screen self) self1
         ∧ (self1 = self
            ∨ ∃ n r, self1 = with_pointer_line (Some n) self
                     ∧ n ∈ reads
                     ∧ record_at (mapped_file self) n = Some r
                     ∧ check_match self (lr_line r) = Ret true)).
Proof.
  rewrite advance_search_unfold_any.
  destruct (scan_outcome self (line_range self direction))
    as [(n & r & reads' & Hr & Hm & Hin & ->)|(o' & reads' & ->)].
  - intros [= <- <- <-]. right. split; [done|].
    eexists. split; [done|]. right. by exists n, r.
  - destruct o' as [[]|e]; intros [= <- <- <-].
    + right. split; [done|]. eexists. split; [done|]. by left.
    + left. by exists e.
Qed.

Lemma same_settings_settle (scroll_y max_y : Z) (self self1 : LogLines) :
  same_settings self self1 →
  same_settings self (settle scroll_y max_y self1).
Proof.
  unfold settle. destruct (pointer_line self1); [|done].
  by destruct (_ || _).
Qed.

(** X11.  Whatever the direction and wherever the pointer is, a search moves
    the pointer to a line only when it has read this line and the line
    matches; otherwise the pointer stays as it was.  A search that raises
    leaves the whole widget as it was. *)
Theorem advance_search_moves_to_matches (self self' : LogLines) (direction : Z)
    (o : outcome unit) (reads : list Z) :
  advance_search direction self = (o, self', reads) →
  (∀ e, o = Raise e → self' = self)
  ∧ (pointer_line self' = pointer_line self
     ∨ ∃ n, pointer_line self' = Some n ∧ n ∈ reads ∧ line_matches self n).
Proof.
  intros [(e & -> & ->)|(-> & self1 & -> & Hself1)]%advance_search_outcome.
  - split; [done | by left].
  - split; [done|]. rewrite pointer_line_settle.
    destruct Hself1 as [->|(n & r & -> & Hin & Hr & Hm)]; [by left|].
    right. exists n. repeat split; [done|]. by exists r.
Qed.

(** X12.  A search leaves what the widget shows and looks for as it was:
    the mapped file, the icons, the find settings, the switches of the gutter
    and of the timestamps, the cache of strips, the widest width and the
    suggestion index, whether the search returns or raises.  (Where the
    widget is scrolled to is not part of the statement: the search may ask
    for a scroll.) *)
Theorem advance_search_frame (self self' : LogLines) (direction : Z)
    (o : outcome unit) (reads : list Z) :
  advance_search direction self = (o, self', reads) →
  same_content self self'.
Proof.
  intros [(e & -> & ->)|(-> & self1 & -> & Hself1)]%advance_search_outcome.
  - by repeat split.
  - assert (Hsame : same_content self self1).
    { destruct Hself1 as [->|(n & r & -> & _)]; by repeat split. }
    unfold settle. destruct (pointer_line self1); [|done].
    by destruct (_ || _).
Qed.

(** X13.  When a search returns with the pointer on a line that is on
    screen, it asks for no scroll.  When the pointer is on a line above or
    below the screen, whether the search has moved it or not, the search
    counts one more running scroll and asks for one scroll, to the line half
    a screen above the pointer, animated when that is more than one line
    away. *)
Theorem advance_search_scrolls (self self' : LogLines) (direction p : Z)
    (reads : list Z) :
  advance_search direction self = (Ret tt, self', reads) →
  pointer_line self' = Some p →
  let scroll_y := (scroll_offset self).2 in
  let height := scrollable_content_region_height self in
  ((scroll_y ≤ p ≤ scroll_y + height - 1)%Z →
     is_scrolling self' = is_scrolling self
     ∧ scroll_to_calls self' = scroll_to_calls self)
  ∧ ((p < scroll_y ∨ scroll_y + height - 1 < p)%Z →
     is_scrolling self' = (is_scrolling self + 1)%Z
     ∧ scroll_to_calls self' =
         scroll_to_calls self
         ++ [((p - height / 2)%Z, (1 <? Z.abs (p - height / 2 - scroll_y))%Z)]).
Proof.
  intros [(e & [=] & _)|(_ & self1 & -> & Hself1)]%advance_search_outcome.
  rewrite pointer_line_settle. intros Hp. cbv zeta.
  assert (Hsame : is_scrolling self1 = is_scrolling self
                  ∧ scroll_to_calls self1 = scroll_to_calls self
                  ∧ scroll_offset self1 = scroll_offset self
                  ∧ scrollable_content_region_height self1
                    = scrollable_content_region_height self).
  { destruct Hself1 as [->|(n & r & -> & _)]; by repeat split. }
  destruct Hsame as (His & Hcalls & Hoff & Hheight).
  unfold settle, last_on_screen. rewrite Hp.
  split.
  - intros Hon.
    destruct (Z.ltb_spec p (scroll_offset self).2); [lia|].
    destruct (Z.ltb_spec ((scroll_offset self).2
                          + scrollable_content_region_height self - 1) p); [lia|].
    by simpl.
  - intros Hoffscreen.
    assert ((p <? (scroll_offset self).2)%Z
            || ((scroll_offset self).2
                + scrollable_content_region_height self - 1 <? p)%Z = true) as ->.
    { apply orb_true_iff. destruct Hoffscreen; [left | right];
        by apply Z.ltb_lt. }
    simpl. by rewrite His, Hcalls, Hoff, Hheight.
Qed.

(** ** Rendering, again *)

Lemma is_pointer_decide (self : LogLines) (index : Z) :
  match pointer_line self with
  | Some p => (index =? p)%Z
  | None => false
  end = bool_decide (pointer_line self = Some index).
Proof.
  destruct (pointer_line self) as [p|]; [|done].
  destruct (Z.eqb_spec index p) as [->|Hne].
  - by rewrite bool_decide_eq_true_2.
  - rewrite bool_decide_eq_false_2; [done|]. congruence.
Qed.

(** A line whose strip is in the cache. *)
Lemma render_line_hit (self : LogLines) (y : Z) (strip : Strip) :
  let index := (y + (scroll_offset self).2)%Z in
  (index < line_count self)%Z →
  _render_line_cache self
    !! (index, bool_decide (pointer_line self = Some index)) = Some strip →
  render_line cell_len y self = (Ret (framed self index strip), self, []).
Proof.
  intros index Hin Hhit. subst index.
  unfold render_line, framed. run.
  destruct (scroll_offset self) as [scroll_x scroll_y].
  destruct (widget_size self) as [width height]. simpl in *.
  destruct (Z.leb_spec (line_count self) (y + scroll_y)); [lia|].
  rewrite is_pointer_decide, Hhit. simpl.
  destruct (bool_decide _), (show_gutter self); done.
Qed.

(** A line whose strip is not in the cache. *)
Lemma render_line_miss (self : LogLines) (y : Z) :
  let index := (y + (scroll_offset self).2)%Z in
  let cache_key := (index, bool_decide (pointer_line self = Some index)) in
  (index < line_count self)%Z →
  _render_line_cache self !! cache_key = None →
  render_line cell_len y self =
    match record_at (mapped_file self) index with
    | None => (Raise IndexError, self, [index])
    | Some r =>
        let text := drawn_text self index r in
        let self1 :=
          with_search_index (observe (_search_index self) (plain text)) self in
        match highlighted self text with
        | Raise e => (Raise e, self1, [index])
        | Ret text =>
            (Ret (framed self index (Strip_of text)),
             with_cached cache_key (Strip_of text)
               (with_max_width
                  (Z.max (_max_width self) (cell_len (plain text))) self1),
             [index])
        end
    end.
Proof.
  intros index cache_key Hin Hmiss. subst index cache_key.
  unfold render_line, framed, highlighted, drawn_text. run.
  destruct (scroll_offset self) as [scroll_x scroll_y].
  destruct (widget_size self) as [width height]. simpl in *.
  destruct (Z.leb_spec (line_count self) (y + scroll_y)); [lia|].
  rewrite is_pointer_decide, Hmiss. unfold get_text.
  destruct (record_at (mapped_file self) (y + scroll_y)) as [r|]; [|done].
  simpl.
  destruct (negb (Py.falsy (find self)) && show_find self).
  - destruct (highlight_find self _) as [text|e]; simpl; [|done].
    destruct (bool_decide _), (show_gutter self); done.
  - simpl. destruct (bool_decide _), (show_gutter self); done.
Qed.

Lemma render_line_beyond (self : LogLines) (y : Z) :
  (line_count self ≤ y + (scroll_offset self).2)%Z →
  render_line cell_len y self =
    (Ret (Strip_blank (widget_size self).1 rich_style), self, []).
Proof.
  intros Hy. unfold render_line. run.
  destruct (scroll_offset self) as [scroll_x scroll_y].
  destruct (widget_size self) as [width height]. simpl in *.
  destruct (Z.leb_spec (line_count self) (y + scroll_y)); [done | lia].
Qed.

Lemma plain_fold_call (spans : list (nat * nat)) (style : Style) (text : Text) :
  plain (fold_left (fun text span => call (stylize style (Some span)) text)
           spans text) = plain text.
Proof.
  revert text. induction spans as [|sp l IH]; intros text; simpl; [done|].
  by rewrite IH.
Qed.

(** Highlighting changes the styles of a text, not its characters. *)
Lemma highlighted_plain (self : LogLines) (text text' : Text) :
  highlighted self text = Ret text' → plain text' = plain text.
Proof.
  unfold highlighted, highlight_find, re_finditer.
  destruct (negb (Py.falsy (find self)) && show_find self); [|by intros [= <-]].
  destruct (regex self).
  - destruct (re_compile (find self) NOFLAG); [|by intros [= <-]].
    destruct (re_compile (find self) (find_flags self)); [|done]. simpl.
    destruct (finditer _ _) as [|sp l]; intros [= <-]; [done|].
    apply (plain_fold_call (sp :: l)).
  - destruct (if case_sensitive self then _ else _); by intros [= <-].
Qed.

Lemma plain_drawn_text (self : LogLines) (index : Z) (r : LineRecord) :
  plain (drawn_text self index r) = drawn_plain self r.
Proof.
  unfold drawn_text, drawn_plain.
  destruct (bool_decide _), (lr_timestamp r); try done;
    by destruct (show_timestamps self).
Qed.


(** X15.  Drawing a row twice in a row draws it once: when the first call
    returns, the second returns the same strip, asks the mapped file for
    nothing and leaves the widget as the first call left it. *)
Theorem render_line_twice (self self' : LogLines) (y : Z) (strip : Strip)
    (reads : list Z) :
  render_line cell_len y self = (Ret strip, self', reads) →
  render_line cell_len y self' = (Ret strip, self', []).
Proof.
  destruct (Z.le_gt_cases (line_count self) (y + (scroll_offset self).2))
    as [Hbeyond|Hin].
  { rewrite (render_line_beyond self y Hbeyond). intros [= <- <- <-].
    by apply render_line_beyond. }
  destruct (_render_line_cache self
              !! ((y + (scroll_offset self).2)%Z,
                  bool_decide (pointer_line self
                               = Some (y + (scroll_offset self).2)%Z)))
    as [cached|] eqn:Hcache.
  { rewrite (render_line_hit self y cached) by done.
    intros [= <- <- <-]. by apply render_line_hit. }
  rewrite (render_line_miss self y) by done.
  destruct (record_at (mapped_file self) _) as [r|]; [|done]. cbv zeta.
  destruct (highlighted self _) as [text|e]; [|done].
  intros [= <- <- <-].
  match goal with
  | |- render_line _ _ ?s = _ =>
      pose proof (render_line_hit s y (Strip_of text)) as Hhit
  end.
  apply Hhit; simpl.
  - apply Hin.
  - by apply lookup_set_new.
Qed.

(** X16.  Drawing assigns the cache of strips, the widest width and the
    suggestion index, and nothing else; and the widest width never goes
    down. *)
Theorem render_line_frame (self self' : LogLines) (y : Z) (o : outcome Strip)
    (reads : list Z) :
  render_line cell_len y self = (o, self', reads) →
  same_settings self self'
  ∧ pointer_line self' = pointer_line self
  ∧ is_scrolling self' = is_scrolling self
  ∧ scroll_to_calls self' = scroll_to_calls self
  ∧ (_max_width self ≤ _max_width self')%Z.
Proof.
  destruct (Z.le_gt_cases (line_count self) (y + (scroll_offset self).2))
    as [Hbeyond|Hin].
  { rewrite (render_line_beyond self y Hbeyond). intros [= <- <- <-].
    by repeat split. }
  destruct (_render_line_cache self
              !! ((y + (scroll_offset self).2)%Z,
                  bool_decide (pointer_line self
                               = Some (y + (scroll_offset self).2)%Z)))
    as [cached|] eqn:Hcache.
  { rewrite (render_line_hit self y cached) by done.
    intros [= <- <- <-]. by repeat split. }
  rewrite (render_line_miss self y) by done.
  destruct (record_at (mapped_file self) _) as [r|];
    [|intros [= <- <- <-]; by repeat split].
  cbv zeta. destruct (highlighted self _) as [text|e]; intros [= <- <- <-].
  - repeat split; simpl. lia.
  - by repeat split.
Qed.

(** X17.  Drawing a line of the index returns a strip, without raising,
    when there is nothing to find, when the find bar is hidden, in the plain
    variant, when the pattern does not compile without flags (the
    highlighting is then skipped), and when it compiles under the flags of
    the widget. *)
Theorem render_line_returns (self : LogLines) (y : Z) :
  let index := (y + (scroll_offset self).2)%Z in
  (0 ≤ index < line_count self)%Z →
  find self = "" ∨ show_find self = false ∨ regex self = false
  ∨ re_compile (find self) NOFLAG = None
  ∨ re_compile (find self) (find_flags self) ≠ None →
  ∃ strip self' reads, render_line cell_len y self = (Ret strip, self', reads).
Proof.
  intros index Hin Hfind. subst index.
  destruct (_render_line_cache self
              !! ((y + (scroll_offset self).2)%Z,
                  bool_decide (pointer_line self
                               = Some (y + (scroll_offset self).2)%Z)))
    as [cached|] eqn:Hcache.
  { rewrite (render_line_hit self y cached) by (lia || done). by eexists _, _, _. }
  rewrite (render_line_miss self y) by (lia || done).
  destruct (record_at_in_range self _ Hin) as [r ->]. cbv zeta.
  assert (Hret : ∃ text, highlighted self (drawn_text self
                   (y + (scroll_offset self).2) r) = Ret text).
  { unfold highlighted, highlight_find, re_finditer.
    destruct Hfind as [-> | [-> | [-> | [-> | Hc]]]].
    - by eexists.
    - rewrite andb_false_r. by eexists.
    - destruct (_ && _); [|by eexists].
      destruct (if case_sensitive self then _ else _); by eexists.
    - destruct (_ && _); [|by eexists]. destruct (regex self); [by eexists|].
      destruct (if case_sensitive self then _ else _); by eexists.
    - destruct (_ && _); [|by eexists]. destruct (regex self).
      + destruct (re_compile (find self) NOFLAG); [|by eexists].
        destruct (re_compile (find self) (find_flags self)); [|done]. simpl.
        destruct (finditer _ _); by eexists.
      + destruct (if case_sensitive self then _ else _); by eexists. }
  destruct Hret as [text ->]. by eexists _, _, _.
Qed.

(** X18.  The first search, with no pointer yet, starts on the top line on
    screen for the direction 1 and on line [max_scroll_y] for the direction
    -1, this line included, and goes on as a search from a cursor does: it
    stops on the first line that matches and puts the pointer there, or reads
    every line on its way and leaves the widget without a pointer. *)
Theorem advance_search_first (self : LogLines) (direction : Z) :
  pointer_line self = None →
  valid_predicate self →
  (direction = 1 ∧ 0 ≤ (scroll_offset self).2)%Z
  ∨ (direction = -1 ∧ max_scroll_y self < line_count self)%Z →
  let c := (start_line self direction - direction)%Z in
  ∃ self' reads,
    advance_search direction self = (Ret tt, self', reads)
    ∧ ((∃ j, 1 ≤ j ≤ lines_ahead self c direction
             ∧ line_matches self (c + direction * Z.of_nat j)
             ∧ (∀ i, 1 ≤ i < j →
                  ¬ line_matches self (c + direction * Z.of_nat i))
             ∧ pointer_line self' = Some (c + direction * Z.of_nat j)%Z
             ∧ reads = steps c direction 1 j)
       ∨ ((∀ i, 1 ≤ i ≤ lines_ahead self c direction →
             ¬ line_matches self (c + direction * Z.of_nat i))
          ∧ pointer_line self' = None
          ∧ reads = steps c direction 1 (lines_ahead self c direction))).
Proof.
  intros Hnone Hvalid Hdir c.
  rewrite advance_search_unfold_any. unfold line_range.
  replace (start_line self direction) with (c + direction)%Z by (unfold c; lia).
  rewrite line_range_steps by (destruct Hdir as [[-> _]|[-> _]]; auto).
  destruct (scan_steps self c direction (lines_ahead self c direction) 1 Hvalid)
    as [(j & Hj & Hm & Hbefore & ->)|[Hnomatch ->]].
  - intros i Hi. unfold lines_ahead, c, start_line in *. rewrite Hnone in *.
    destruct Hdir as [[-> Hlo]|[-> Hhi]]; simpl in *; lia.
  - eexists _, _. split; [done|]. left. exists j.
    rewrite pointer_line_settle. simpl.
    repeat split; [lia.. | done | | ].
    + intros i Hi. apply Hbefore. lia.
    + f_equal. lia.
  - eexists _, _. split; [done|]. right.
    rewrite pointer_line_settle.
    repeat split; [|done..].
    intros i Hi. apply Hnomatch. lia.
Qed.

(** ** Idle time *)

(** X19.  When no scroll is running and the screen has at least one line,
    [on_idle] brings the pointer back on screen: a pointer above the screen
    goes to the top line, a pointer below it to the bottom line, and a
    pointer on screen stays where it is. *)
Theorem on_idle_clamps (self : LogLines) (p : Z) :
  pointer_line self = Some p →
  is_scrolling self = 0%Z →
  (1 ≤ scrollable_content_region_height self)%Z →
  let scroll_y := (scroll_offset self).2 in
  let bottom := (scroll_y + scrollable_content_region_height self - 1)%Z in
  ∃ p', pointer_line (on_idle self).2 = Some p'
        ∧ (scroll_y ≤ p' ≤ bottom)%Z
        ∧ p' = (scroll_y `max` (p `min` bottom))%Z.
Proof.
  intros Hp His Hh scroll_y bottom. subst scroll_y bottom.
  unfold on_idle. rewrite Hp, His. simpl.
  destruct (Z.ltb_spec p (scroll_offset self).2).
  - eexists. split; [done|]. lia.
  - destruct (Z.leb_spec ((scroll_offset self).2
                          + scrollable_content_region_height self) p).
    + eexists. split; [done|]. lia.
    + exists p. split; [done|]. lia.
Qed.

(** X20.  [on_idle] run twice does what it does run once, when the screen
    has at least one line: the size is the same and the pointer does not move
    again. *)
Theorem on_idle_idempotent (self : LogLines) :
  (1 ≤ scrollable_content_region_height self)%Z →
  on_idle (on_idle self).2 = on_idle self.
Proof.
  intros Hh. unfold on_idle.
  destruct (pointer_line self) as [p|] eqn:Hp; simpl; [|by rewrite Hp].
  destruct (Z.eqb_spec (is_scrolling self) 0) as [His|His]; simpl.
  - destruct (Z.ltb_spec p (scroll_offset self).2); simpl.
    + rewrite His. simpl. rewrite Z.ltb_irrefl.
      destruct (Z.leb_spec ((scroll_offset self).2
                            + scrollable_content_region_height self)
                           (scroll_offset self).2); [lia | done].
    + destruct (Z.leb_spec ((scroll_offset self).2
                            + scrollable_content_region_height self) p); simpl.
      * rewrite His. simpl.
        destruct (Z.ltb_spec ((scroll_offset self).2
                              + scrollable_content_region_height self - 1)
                             (scroll_offset self).2); [lia|].
        destruct (Z.leb_spec ((scroll_offset self).2
                              + scrollable_content_region_height self)
                             ((scroll_offset self).2
                              + scrollable_content_region_height self - 1));
          [lia | done].
      * rewrite Hp, His. simpl.
        destruct (Z.ltb_spec p (scroll_offset self).2); [lia|].
        destruct (Z.leb_spec ((scroll_offset self).2
                              + scrollable_content_region_height self) p);
          [lia | done].
  - rewrite Hp. destruct (Z.eqb_spec (is_scrolling self) 0); done.
Qed.

(** X21.  After a search that returns, [on_idle] leaves the pointer where
    the search has put it: on screen there is nothing to bring back, and off
    screen the search has counted a running scroll, which holds [on_idle]
    back.  The count of running scrolls must not be negative before the
    search. *)
Theorem on_idle_after_advance_search (self self' : LogLines) (direction : Z)
    (reads : list Z) :
  advance_search direction self = (Ret tt, self', reads) →
  (0 ≤ is_scrolling self)%Z →
  (on_idle self').2 = self'.
Proof.
  intros [(e & [=] & _)|(_ & self1 & -> & Hself1)]%advance_search_outcome His.
  assert (Hsame : is_scrolling self1 = is_scrolling self
                  ∧ scroll_offset self1 = scroll_offset self
                  ∧ scrollable_content_region_height self1
                    = scrollable_content_region_height self).
  { destruct Hself1 as [->|(n & r & -> & _)]; by repeat split. }
  destruct Hsame as (Hs & Hoff & Hheight).
  unfold settle, last_on_screen, on_idle.
  destruct (pointer_line self1) as [p|] eqn:Hp; simpl; [|by rewrite Hp].
  destruct (Z.ltb_spec p (scroll_offset self).2) as [Habove|Habove]; simpl.
  { rewrite Hp, Hs. by destruct (Z.eqb_spec (is_scrolling self + 1) 0); [lia|]. }
  destruct (Z.ltb_spec ((scroll_offset self).2
                        + scrollable_content_region_height self - 1) p)
    as [Hbelow|Hbelow]; simpl.
  { rewrite Hp, Hs. by destruct (Z.eqb_spec (is_scrolling self + 1) 0); [lia|]. }
  rewrite Hp, Hoff, Hheight.
  destruct (is_scrolling self1 =? 0)%Z; [|done].
  destruct (Z.ltb_spec p (scroll_offset self).2); [lia|].
  destruct (Z.leb_spec ((scroll_offset self).2
                        + scrollable_content_region_height self) p); [lia|done].
Qed.

(** X22.  Once a line that was not in the cache is drawn, the width
    [on_idle] gives to the virtual size is at least the width of the text of
    this line, timestamp included when timestamps are shown. *)
Theorem virtual_width_covers_drawn (self self' : LogLines) (y : Z)
    (r : LineRecord) (strip : Strip) (reads : list Z) :
  let index := (y + (scroll_offset self).2)%Z in
  record_at (mapped_file self) index = Some r →
  _render_line_cache self
    !! (index, bool_decide (pointer_line self = Some index)) = None →
  render_line cell_len y self = (Ret strip, self', reads) →
  (cell_len (drawn_plain self r) ≤ (on_idle self').1.1)%Z.
Proof.
  intros index Hr Hmiss. subst index.
  pose proof (record_at_Some _ _ _ Hr) as Hin.
  rewrite (render_line_miss self y) by (lia || done). rewrite Hr. cbv zeta.
  destruct (highlighted self _) as [text|e] eqn:Hh; [|done].
  intros [= <- <- <-]. apply highlighted_plain in Hh.
  rewrite plain_drawn_text in Hh. rewrite <- Hh.
  unfold on_idle, GUTTER_WIDTH. simpl. destruct (show_gutter self); lia.
Qed.


(** ** Watchers *)

Lemma render_line_empty_cache (self : LogLines) (y : Z) :
  _render_line_cache self = ∅ →
  (y + (scroll_offset self).2 < line_count self)%Z →
  ∃ o self', render_line cell_len y self
             = (o, self', [(y + (scroll_offset self).2)%Z]).
Proof.
  intros Hempty Hin.
  rewrite (render_line_miss self y) by (done || by rewrite Hempty, lookup_empty).
  destruct (record_at (mapped_file self) _); [|by eexists _, _].
  cbv zeta. destruct (highlighted self _); by eexists _, _.
Qed.

(** X23.  After [watch_find], [watch_show_find] or [clear_caches], drawing
    a row that shows a line asks the mapped file for the line again, whatever
    was in the cache of strips; the suggestion index is not cleared. *)
Theorem watchers_invalidate_strips (self : LogLines) (y : Z) (find : string)
    (show_find : bool) (after : LogLines) :
  after = clear_caches self ∨ after = watch_find find self
  ∨ after = watch_show_find show_find self →
  (y + (scroll_offset self).2 < line_count self)%Z →
  _search_index after = _search_index self
  ∧ ∃ o self', render_line cell_len y after
               = (o, self', [(y + (scroll_offset self).2)%Z]).
Proof.
  intros Hafter Hin.
  assert (Hfacts : _render_line_cache after = ∅
                   ∧ _search_index after = _search_index self
                   ∧ scroll_offset after = scroll_offset self
                   ∧ line_count after = line_count self).
  { destruct Hafter as [-> | [-> | ->]].
    - done.
    - unfold watch_find. by destruct (Py.falsy find).
    - unfold watch_show_find. by destruct show_find. }
  destruct Hfacts as (Hcache & Hindex & Hoff & Hcount).
  split; [done|]. rewrite <- Hoff.
  apply render_line_empty_cache; [done|]. by rewrite Hoff, Hcount.
Qed.

(** X24.  A click on a row of the screen, while the find bar is shown and
    no scroll is running, puts the pointer on the line of that row and shows
    the gutter, and [on_idle] leaves the pointer there. *)
Theorem on_click_selects_row (self : LogLines) (y top : Z) :
  show_find self = true →
  is_scrolling self = 0%Z →
  (0 ≤ y - top < scrollable_content_region_height self)%Z →
  let clicked := on_click y top self in
  pointer_line clicked = Some (y + (scroll_offset self).2 - top)%Z
  ∧ show_gutter clicked = true
  ∧ (on_idle clicked).2 = clicked.
Proof.
  intros Hshow His Hrow clicked. subst clicked.
  unfold on_click, on_idle. rewrite Hshow. simpl. rewrite His. simpl.
  destruct (Z.ltb_spec (y + (scroll_offset self).2 - top) (scroll_offset self).2);
    [lia|].
  destruct (Z.leb_spec ((scroll_offset self).2
                        + scrollable_content_region_height self)
                       (y + (scroll_offset self).2 - top)); [lia | done].
Qed.

End MoreProperties.

(** * Examples

    The theorems above hold for every engine.  The examples run on the small
    engine. *)

#[local] Existing Instance MiniRe.engine.

(** C1 fails as stated: the pattern ["("] does not compile, yet the match
    test accepts the empty line, and a search forward from line 0 stops on
    the empty line 1. *)
Lemma invalid_regex_matches_empty_line :
  regex broken_regex = true
  ∧ re_compile (find broken_regex) (find_flags broken_regex) = None
  ∧ check_match broken_regex "" = Ret true
  ∧ check_match broken_regex "" ≠ Ret false
  ∧ pointer_line (advance_search 1 broken_regex).1.2 = Some 1%Z.
Proof. repeat split; try (vm_compute; reflexivity). discriminate. Qed.

Lemma invalid_regex_empty_line_witness :
  check_match broken_regex "" = Ret true
  ∧ ∃ self',
      advance_search 1 broken_regex = (Ret tt, self', [1%Z])
      ∧ pointer_line self' = Some 1%Z.
Proof.
  apply (invalid_regex_empty_line broken_regex 1 0 (plain_record ""));
    try reflexivity.
  left. reflexivity.
Defined.

Lemma stored_value_is_kept_witness :
  let idx := observe ∅ "error_code_42" in
  idx !! "er" = Some "error_code_42"
  ∧ fold_left observe ["ERR2"; "err2 erratically"] idx !! "er"
    = Some "error_code_42"
  ∧ ∃ v', fold_left observe ["ERR2"; "err2 erratically"] idx !! "er" = Some v'
          ∧ Py.len "error_code_42" ≤ Py.len v'.
Proof.
  intros idx. split; [vm_compute; reflexivity|].
  apply (stored_value_is_kept ["ERR2"; "err2 erratically"] "er" "error_code_42" idx).
  vm_compute. reflexivity.
Defined.

(** On a non-empty line the same widget raises. *)
Example invalid_regex_raises :
  check_match broken_regex "info" = Raise re_error
  ∧ (advance_search (-1) (with_pointer_line (Some 1%Z) broken_regex)).1.1
    = Raise re_error.
Proof. split; vm_compute; reflexivity. Qed.

(** C4 fails as stated: with the pointer on line 1, the only line further
    down, ["warn"], does not match; the search reads it, is exhausted, and the
    pointer is still on line 1, not [None]. *)
Lemma advance_search_keeps_pointer :
  pointer_line on_error_line = Some 1%Z
  ∧ Py.range_up 2 (line_count on_error_line) = [2%Z]
  ∧ check_match on_error_line "warn" = Ret false
  ∧ advance_search 1 on_error_line = (Ret tt, on_error_line, [2%Z])
  ∧ pointer_line (advance_search 1 on_error_line).1.2 ≠ None.
Proof. repeat split; try (vm_compute; reflexivity). discriminate. Qed.

Lemma advance_search_from_cursor_witness :
  let self := sample ["info"; "ERROR: fail"; "warn"] "ERR.*" true false (Some 0%Z) in
  ∃ self' reads,
    advance_search 1 self = (Ret tt, self', reads)
    ∧ ((∃ j, 1 ≤ j ≤ lines_ahead self 0 1
             ∧ line_matches self (0 + 1 * Z.of_nat j)
             ∧ (∀ i, 1 ≤ i < j → ¬ line_matches self (0 + 1 * Z.of_nat i))
             ∧ pointer_line self' = Some (0 + 1 * Z.of_nat j)%Z
             ∧ reads = steps 0 1 1 j)
       ∨ ((∀ i, 1 ≤ i ≤ lines_ahead self 0 1 →
             ¬ line_matches self (0 + 1 * Z.of_nat i))
          ∧ pointer_line self' = Some 0%Z
          ∧ reads = steps 0 1 1 (lines_ahead self 0 1))).
Proof.
  intros self. apply (advance_search_from_cursor self 1 0).
  - left. split; [reflexivity | lia].
  - reflexivity.
  - intros _. vm_compute. discriminate.
Defined.

(** The scanning example of the specification: a plain, case-insensitive
    ["ERROR"], no pointer yet, direction 1, from the top of the file. *)
Example advance_search_finds_error :
  let self := sample ["info"; "ERROR: fail"; "warn"] "ERROR" false false None in
  pointer_line (advance_search 1 self).1.2 = Some 1%Z
  ∧ (advance_search 1 self).2 = [0%Z; 1%Z].
Proof. split; vm_compute; reflexivity. Qed.

Lemma check_match_empty_find_witness :
  let self := sample [] "" true false None in
  find self = "" ∧ check_match self "ERROR: fail" = Ret true.
Proof.
  intros self. split; [reflexivity|].
  apply (check_match_empty_find self "ERROR: fail"). reflexivity.
Defined.

Lemma check_match_anchored_witness :
  let self := sample [] "b" true true None in
  check_match self "ba" = Ret true
  ∧ check_match self "ab" = Ret false
  ∧ ∃ span, re_search (find self) "ab" (find_flags self) = Ret (Some span).
Proof.
  intros self. split.
  - edestruct (check_match_anchored self "ba") as (_ & Hyes & _);
      [discriminate | reflexivity | reflexivity |].
    apply Hyes. vm_compute. discriminate.
  - edestruct (check_match_anchored self "ab") as (_ & _ & _ & Hno);
      [discriminate | reflexivity | reflexivity |].
    apply (Hno 1).
    + simpl. lia.
    + vm_compute. discriminate.
    + reflexivity.
Defined.

Lemma render_line_beyond_index_witness :
  let self := sample ["info"; "ERROR: fail"; "warn"] "ERROR" false false None in
  (line_count self ≤ 3 + (scroll_offset self).2)%Z
  ∧ render_line (fun s => Z.of_nat (Py.len s)) 3 self =
      (Ret (Strip_blank 80 rich_style), self, []).
Proof.
  intros self. split; [vm_compute; discriminate|].
  apply (render_line_beyond_index (fun s => Z.of_nat (Py.len s)) self 3).
  vm_compute. discriminate.
Defined.

(** ** Examples of the further properties *)

Lemma observe_all_entries_witness :
  observe_all ["GET /index.html"; "error_code_42"] !! "err" = Some "error_code_42"
  ∧ "error_code_42" ∈ tokens ["GET /index.html"; "error_code_42"]
  ∧ ∃ k, 1 ≤ k ∧ k + 2 ≤ Py.len "error_code_42"
         ∧ "err" = Py.lower (Py.take k "error_code_42").
Proof.
  split; [vm_compute; reflexivity|].
  apply (observe_all_entries ["GET /index.html"; "error_code_42"]).
  vm_compute. reflexivity.
Defined.

Lemma get_suggestion_completes_witness :
  ∃ start word hit k,
    "GET /IND" = start +:+ word
    ∧ word = last_piece (re_split "GET /IND")
    ∧ word ≠ ""
    ∧ "GET /index.html" = start +:+ hit
    ∧ observe_all ["GET /index.html"; "error_code_42"] !! Py.lower word = Some hit
    ∧ hit ∈ tokens ["GET /index.html"; "error_code_42"]
    ∧ 1 ≤ k ∧ k + 2 ≤ Py.len hit
    ∧ Py.lower word = Py.lower (Py.take k hit).
Proof.
  apply (get_suggestion_completes ["GET /index.html"; "error_code_42"]).
  vm_compute. reflexivity.
Defined.

Lemma observed_prefix_is_suggested_witness :
  ∃ hit,
    get_suggestion (observe_all ["GET /index.html"; "error_code_42"])
      (Py.take 5 "index.html") = Some hit.
Proof.
  apply (observed_prefix_is_suggested _ "GET /index.html" "index.html" 5).
  - apply list_elem_of_In. simpl. auto.
  - apply list_elem_of_In. vm_compute. auto.
  - lia.
  - simpl. lia.
Defined.



Lemma check_match_plain_witness :
  check_match fresh_view "ERROR: fail" = Ret true
  ↔ "ERROR: fail" = ""
    ∨ occurs_in (Py.lower "ERROR") (Py.lower "ERROR: fail").
Proof. apply (check_match_plain fresh_view "ERROR: fail"). reflexivity. Defined.

Lemma check_match_ignores_case_witness :
  check_match (sample [] "Error" false false None) "ERROR: fail"
  = check_match (sample [] "eRRor" false false None) "error: FAIL".
Proof.
  apply (check_match_ignores_case
           (sample [] "eRRor" false false None) (sample [] "Error" false false None));
    reflexivity.
Defined.

Lemma advance_search_moves_to_matches_witness :
  (∀ e, Ret tt = Raise e → with_pointer_line (Some 1%Z) on_first_line = on_first_line)
  ∧ (pointer_line (with_pointer_line (Some 1%Z) on_first_line)
     = pointer_line on_first_line
     ∨ ∃ n, pointer_line (with_pointer_line (Some 1%Z) on_first_line) = Some n
            ∧ n ∈ [1%Z] ∧ line_matches on_first_line n).
Proof.
  apply (advance_search_moves_to_matches on_first_line _ 1).
  vm_compute. reflexivity.
Defined.

Lemma advance_search_frame_witness :
  same_content long_view (advance_search 1 long_view).1.2.
Proof.
  apply (advance_search_frame long_view _ 1 (advance_search 1 long_view).1.1
           (advance_search 1 long_view).2).
  vm_compute. reflexivity.
Defined.

Lemma advance_search_scrolls_witness :
  let self' := (advance_search 1 long_view).1.2 in
  ((0 ≤ 39 ≤ 0 + 24 - 1)%Z →
     is_scrolling self' = is_scrolling long_view
     ∧ scroll_to_calls self' = scroll_to_calls long_view)
  ∧ ((39 < 0 ∨ 0 + 24 - 1 < 39)%Z →
     is_scrolling self' = (is_scrolling long_view + 1)%Z
     ∧ scroll_to_calls self' =
         scroll_to_calls long_view
         ++ [((39 - 24 / 2)%Z, (1 <? Z.abs (39 - 24 / 2 - 0))%Z)]).
Proof.
  intros self'.
  apply (advance_search_scrolls long_view self' 1 39 (advance_search 1 long_view).2);
    vm_compute; reflexivity.
Defined.



Lemma render_line_twice_witness :
  ∃ strip self',
    render_line one_cell_each 1 fresh_view = (Ret strip, self', [1%Z])
    ∧ render_line one_cell_each 1 self' = (Ret strip, self', []).
Proof.
  eexists _, _. split; [vm_compute; reflexivity|].
  eapply (render_line_twice one_cell_each fresh_view _ 1).
  vm_compute. reflexivity.
Defined.

Lemma render_line_frame_witness :
  let self' := (render_line one_cell_each 1 fresh_view).1.2 in
  same_settings fresh_view self'
  ∧ pointer_line self' = pointer_line fresh_view
  ∧ is_scrolling self' = is_scrolling fresh_view
  ∧ scroll_to_calls self' = scroll_to_calls fresh_view
  ∧ (_max_width fresh_view ≤ _max_width self')%Z.
Proof.
  intros self'.
  apply (render_line_frame one_cell_each fresh_view self' 1
           (render_line one_cell_each 1 fresh_view).1.1
           (render_line one_cell_each 1 fresh_view).2).
  vm_compute. reflexivity.
Defined.

Lemma render_line_returns_witness :
  ∃ strip self' reads,
    render_line one_cell_each 0 broken_regex = (Ret strip, self', reads).
Proof.
  apply (render_line_returns one_cell_each broken_regex 0).
  - vm_compute. split; [discriminate | reflexivity].
  - right. right. right. left. vm_compute. reflexivity.
Defined.

Lemma advance_search_first_witness :
  ∃ self' reads,
    advance_search 1 fresh_view = (Ret tt, self', reads)
    ∧ ((∃ j, 1 ≤ j ≤ lines_ahead fresh_view (-1) 1
             ∧ line_matches fresh_view (-1 + 1 * Z.of_nat j)
             ∧ (∀ i, 1 ≤ i < j → ¬ line_matches fresh_view (-1 + 1 * Z.of_nat i))
             ∧ pointer_line self' = Some (-1 + 1 * Z.of_nat j)%Z
             ∧ reads = steps (-1) 1 1 j)
       ∨ ((∀ i, 1 ≤ i ≤ lines_ahead fresh_view (-1) 1 →
             ¬ line_matches fresh_view (-1 + 1 * Z.of_nat i))
          ∧ pointer_line self' = None
          ∧ reads = steps (-1) 1 1 (lines_ahead fresh_view (-1) 1))).
Proof.
  apply (advance_search_first fresh_view 1).
  - reflexivity.
  - intros Hregex. vm_compute in Hregex. discriminate.
  - left. split; [reflexivity | vm_compute; discriminate].
Defined.

Lemma on_idle_clamps_witness :
  let self := with_pointer_line (Some 39%Z) long_view in
  ∃ p', pointer_line (on_idle self).2 = Some p'
        ∧ (0 ≤ p' ≤ 0 + 24 - 1)%Z
        ∧ p' = (0 `max` (39 `min` (0 + 24 - 1)))%Z.
Proof.
  intros self. apply (on_idle_clamps self 39).
  - reflexivity.
  - reflexivity.
  - vm_compute. discriminate.
Defined.

Lemma on_idle_idempotent_witness :
  let self := with_pointer_line (Some 39%Z) long_view in
  on_idle (on_idle self).2 = on_idle self.
Proof.
  intros self. apply (on_idle_idempotent self). vm_compute. discriminate.
Defined.

Lemma on_idle_after_advance_search_witness :
  let self' := (advance_search 1 long_view).1.2 in
  pointer_line self' = Some 39%Z ∧ (on_idle self').2 = self'.
Proof.
  intros self'. split; [vm_compute; reflexivity|].
  apply (on_idle_after_advance_search long_view self' 1
           (advance_search 1 long_view).2).
  - vm_compute. reflexivity.
  - vm_compute. discriminate.
Defined.

Lemma virtual_width_covers_drawn_witness :
  let self' := (render_line one_cell_each 1 fresh_view).1.2 in
  (one_cell_each (drawn_plain fresh_view (plain_record "ERROR: fail"))
   ≤ (on_idle self').1.1)%Z.
Proof.
  intros self'.
  eapply (virtual_width_covers_drawn one_cell_each fresh_view self' 1).
  - reflexivity.
  - reflexivity.
  - vm_compute. reflexivity.
Defined.

Lemma watchers_invalidate_strips_witness :
  let drawn := (render_line one_cell_each 1 fresh_view).1.2 in
  _search_index (watch_find "warn" drawn) = _search_index drawn
  ∧ ∃ o self', render_line one_cell_each 1 (watch_find "warn" drawn)
               = (o, self', [1%Z]).
Proof.
  intros drawn.
  apply (watchers_invalidate_strips one_cell_each drawn 1 "warn" true).
  - right. left. reflexivity.
  - vm_compute. reflexivity.
Defined.

Lemma on_click_selects_row_witness :
  let clicked := on_click 3 1 fresh_view in
  pointer_line clicked = Some (3 + 0 - 1)%Z
  ∧ show_gutter clicked = true
  ∧ (on_idle clicked).2 = clicked.
Proof.
  apply (on_click_selects_row fresh_view 3 1).
  - reflexivity.
  - reflexivity.
  - vm_compute. split; [discriminate | reflexivity].
Defined.
